(** * The customer-support agent: pipeline, classifier and context manager

    A shallow embedding of the Python sources [agent_state.py],
    [query_processor.py], [memory_manager.py], [graph_builder.py] and
    [main.py], followed by the properties of the specification.

    Modelling conventions.
    - A Python [str] is a [string]; the case, whitespace and word-character
      functions below are Python's on the ASCII range (code points below 128),
      and a byte above 127 is an uncased, non-blank, non-word character.
    - A Python [float] that the code computes is the rational it denotes
      ([Q], in lowest terms): the only floats are [score / 3.0], [overlap / min_length] and
      the literals 0.0, 0.3, 0.5, 0.95 and 1.0, and every comparison the code
      makes has the same outcome on the rationals as on the floats for lists
      of fewer than 2^53 words.
    - A dictionary with free-form values is an association list of
      [pyval]; the history files are a [gmap] from file name to content.
    - [datetime.now()] and the outcome of a file write belong to the
      environment and are explicit arguments. *)

From Stdlib Require Import Ascii String QArith.
From stdpp Require Import gmap strings list.

Set Warnings "-register-all".

Local Open Scope bool_scope.

(** ** Python string primitives *)

Module Py.

Definition code (c : ascii) : nat := nat_of_ascii c.

(** [c.isupper()] and [c.islower()] on one ASCII character. *)
Definition is_upper_char (c : ascii) : bool :=
  (65 <=? code c)%nat && (code c <=? 90)%nat.

Definition is_lower_char (c : ascii) : bool :=
  (97 <=? code c)%nat && (code c <=? 122)%nat.

(** Blank characters of [str.strip()] and [str.split()]: tab, line feed,
    vertical tab, form feed, carriage return, the four separators
    0x1c-0x1f and the space. *)
Definition is_space_char (c : ascii) : bool :=
  ((9 <=? code c)%nat && (code c <=? 13)%nat)
  || ((28 <=? code c)%nat && (code c <=? 32)%nat).

(** Word characters of the regular expression [\w]. *)
Definition is_word_char (c : ascii) : bool :=
  is_upper_char c || is_lower_char c
  || ((48 <=? code c)%nat && (code c <=? 57)%nat)
  || (code c =? 95)%nat.

Definition lower_char (c : ascii) : ascii :=
  if is_upper_char c then ascii_of_nat (code c + 32) else c.

(** [s.lower()] *)
Fixpoint lower (s : string) : string :=
  match s with
  | EmptyString => EmptyString
  | String c r => String (lower_char c) (lower r)
  end.

(** [s.isupper()]: no lower-case character and at least one upper-case one. *)
Fixpoint has_upper (s : string) : bool :=
  match s with
  | EmptyString => false
  | String c r => is_upper_char c || has_upper r
  end.

Fixpoint has_lower (s : string) : bool :=
  match s with
  | EmptyString => false
  | String c r => is_lower_char c || has_lower r
  end.

Definition isupper (s : string) : bool := negb (has_lower s) && has_upper s.

(** [s.count(c)] for a one-character needle. *)
Fixpoint count_char (c : ascii) (s : string) : nat :=
  match s with
  | EmptyString => 0
  | String d r => (if Ascii.eqb c d then 1 else 0) + count_char c r
  end.

(** [s.startswith(t)] *)
Fixpoint startswith (t s : string) : bool :=
  match t, s with
  | EmptyString, _ => true
  | String _ _, EmptyString => false
  | String a t', String b s' => Ascii.eqb a b && startswith t' s'
  end.

(** [t in s] for two strings. *)
Fixpoint contains (t s : string) : bool :=
  startswith t s ||
  match s with
  | EmptyString => false
  | String _ r => contains t r
  end.

(** [any(k in s for k in ks)] *)
Definition any_in (ks : list string) (s : string) : bool :=
  existsb (fun k => contains k s) ks.

(** [sum(1 for k in ks if k in s)] *)
Definition count_in (ks : list string) (s : string) : nat :=
  length (filter (fun k => contains k s = true) ks).

(** [x in xs] for a list of strings. *)
Definition mem (x : string) (xs : list string) : bool :=
  existsb (String.eqb x) xs.

Fixpoint lstrip (s : string) : string :=
  match s with
  | EmptyString => EmptyString
  | String c r => if is_space_char c then lstrip r else s
  end.

(** [rstrip] keeps a character when it is not blank or when something
    non-blank follows it. *)
Fixpoint rstrip (s : string) : string :=
  match s with
  | EmptyString => EmptyString
  | String c r =>
      match rstrip r with
      | EmptyString => if is_space_char c then EmptyString else String c EmptyString
      | r' => String c r'
      end
  end.

(** [s.strip()] *)
Definition strip (s : string) : string := rstrip (lstrip s).

(** Maximal runs of the characters satisfying [keep], in order: [acc] is
    the run being read. *)
Fixpoint runs (keep : ascii -> bool) (acc : string) (s : string) : list string :=
  match s with
  | EmptyString => match acc with EmptyString => [] | _ => [acc] end
  | String c r =>
      if keep c then runs keep (acc +:+ String c EmptyString) r
      else match acc with
           | EmptyString => runs keep EmptyString r
           | _ => acc :: runs keep EmptyString r
           end
  end.

(** [s.split()]: the maximal runs of non-blank characters. *)
Definition split (s : string) : list string :=
  runs (fun c => negb (is_space_char c)) EmptyString s.

(** [re.findall(r'\w+', s)] *)
Definition findall_words (s : string) : list string :=
  runs is_word_char EmptyString s.

(** [set(xs)] *)
Definition set_of (xs : list string) : gset string := list_to_set xs.

End Py.

(** ** Dynamically typed values

    The values a free-form dictionary or a JSON file can hold. *)

Inductive pyval : Type :=
  | VNone
  | VBool (b : bool)
  | VInt (z : Z)
  | VFloat (q : Q)
  | VStr (s : string)
  | VList (l : list pyval)
  | VDict (d : list (string * pyval)).

(** A dictionary in insertion order, keys unique. *)
Definition pydict : Type := list (string * pyval).

(** [d.get(k)] *)
Fixpoint dict_get (k : string) (d : pydict) : option pyval :=
  match d with
  | [] => None
  | (k', v) :: r => if String.eqb k k' then Some v else dict_get k r
  end.

(** [k in d] *)
Definition dict_has (k : string) (d : pydict) : bool :=
  match dict_get k d with Some _ => true | None => false end.

(** Truth value of [bool(v)], as [v or default] and [if v] use it. *)
Definition truthy (v : pyval) : bool :=
  match v with
  | VNone => false
  | VBool b => b
  | VInt z => negb (z =? 0)%Z
  | VFloat q => negb (Qeq_bool q 0)
  | VStr s => negb (String.eqb s "")
  | VList l => match l with [] => false | _ => true end
  | VDict d => match d with [] => false | _ => true end
  end.

(** [l[start:]] for a possibly negative [start]. *)
Definition slice_from {A : Type} (start : Z) (l : list A) : list A :=
  if (start <? 0)%Z
  then drop (Z.to_nat (Z.max (Z.of_nat (length l) + start) 0)) l
  else drop (Z.to_nat start) l.

(** ** agent_state.py *)

(** One interaction of the long-term history, [UserHistoryEntry] and its
    [to_dict] form. *)
Record UserHistoryEntry : Type := {
  query : string;
  resolution : string;
  timestamp : string;
  entry_metadata : pydict
}.

(** A message of the log is either a message object (it has the
    attributes [type] and [content]: [HumanMessage] is of type ["human"],
    [AIMessage] of type ["ai"], [SystemMessage] of type ["system"]) or a
    plain dictionary, the legacy shape. *)
Inductive message : Type :=
  | MsgObj (type : string) (content : string) (additional_kwargs : pydict)
  | MsgDict (fields : pydict).

Record AgentState : Type := {
  messages : list message;
  user_history : list UserHistoryEntry;
  user_id : string;
  thread_id : string;
  metadata : gmap string pyval;
  requires_hitl : bool;
  hitl_approved : option bool
}.

Definition set_messages (ms : list message) (st : AgentState) : AgentState :=
  {| messages := ms; user_history := user_history st; user_id := user_id st;
     thread_id := thread_id st; metadata := metadata st;
     requires_hitl := requires_hitl st; hitl_approved := hitl_approved st |}.

Definition set_user_history (h : list UserHistoryEntry) (st : AgentState) : AgentState :=
  {| messages := messages st; user_history := h; user_id := user_id st;
     thread_id := thread_id st; metadata := metadata st;
     requires_hitl := requires_hitl st; hitl_approved := hitl_approved st |}.

Definition set_metadata (md : gmap string pyval) (st : AgentState) : AgentState :=
  {| messages := messages st; user_history := user_history st; user_id := user_id st;
     thread_id := thread_id st; metadata := md;
     requires_hitl := requires_hitl st; hitl_approved := hitl_approved st |}.

Definition set_requires_hitl (b : bool) (st : AgentState) : AgentState :=
  {| messages := messages st; user_history := user_history st; user_id := user_id st;
     thread_id := thread_id st; metadata := metadata st;
     requires_hitl := b; hitl_approved := hitl_approved st |}.

Definition set_hitl_approved (o : option bool) (st : AgentState) : AgentState :=
  {| messages := messages st; user_history := user_history st; user_id := user_id st;
     thread_id := thread_id st; metadata := metadata st;
     requires_hitl := requires_hitl st; hitl_approved := o |}.

(** [state['metadata'][k] = v] *)
Definition meta_set (k : string) (v : pyval) (st : AgentState) : AgentState :=
  set_metadata (<[k := v]> (metadata st)) st.

(** [hasattr(msg, 'type') and msg.type == t] *)
Definition has_type (t : string) (msg : message) : bool :=
  match msg with
  | MsgObj ty _ _ => String.eqb ty t
  | MsgDict _ => false
  end.

(** [hasattr(msg, 'type') and msg.type in roles] *)
Definition type_in (roles : list string) (msg : message) : bool :=
  match msg with
  | MsgObj ty _ _ => Py.mem ty roles
  | MsgDict _ => false
  end.

(** [getattr(msg, 'content', '')]: a dictionary has no attribute [content]. *)
Definition content_attr (msg : message) : string :=
  match msg with
  | MsgObj _ c _ => c
  | MsgDict _ => ""
  end.

(** The part of [StateValidator.validate_state] that looks at one message:
    [true] when it adds no error. *)
Definition validate_message_entry (msg : message) : bool :=
  match msg with
  | MsgObj ty _ _ => Py.mem ty ["human"; "ai"; "system"]
  | MsgDict d =>
      if negb (dict_has "role" d) || negb (dict_has "content" d) then false
      else match dict_get "role" d with
           | Some (VStr r) => Py.mem r ["user"; "assistant"; "system"]
           | _ => false
           end
  end.

(** [StateValidator.validate_state]: the checks that the typed record
    leaves open. [true] stands for the return value [True], [false] for the
    [ValueError]. *)
Definition validate_state (st : AgentState) : bool :=
  negb (String.eqb (user_id st) "")
  && negb (String.eqb (thread_id st) "")
  && forallb validate_message_entry (messages st).

(** [create_initial_state]; [now] is [datetime.now().isoformat()]. *)
Definition create_initial_state (now : string) (uid tid : string) : AgentState :=
  {| messages := []; user_history := []; user_id := uid; thread_id := tid;
     metadata := <["session_count" := VInt 1]> (<["created_at" := VStr now]> ∅);
     requires_hitl := false; hitl_approved := None |}.

(** [add_user_history_entry]; the caller always passes a dictionary as
    metadata. *)
Definition add_user_history_entry (now : string) (st : AgentState)
    (q r : string) (md : pydict) : AgentState :=
  let entry := {| query := q; resolution := r; timestamp := now;
                  entry_metadata := md |} in
  set_user_history (user_history st ++ [entry]) st.

Definition is_system (msg : message) : bool := has_type "system" msg.

Definition len {A : Type} (l : list A) : Z := Z.of_nat (length l).

(** [trim_messages]. The state always carries a metadata mapping, so the
    guard that creates a missing one never fires. *)
Definition trim_messages (st : AgentState) (max_messages : Z)
    (preserve_system : bool) : AgentState :=
  if (len (messages st) <=? max_messages)%Z then st
  else
    let msgs := messages st in
    let kept :=
      if preserve_system then
        let system_messages := List.filter is_system msgs in
        let non_system_messages := List.filter (fun m => negb (is_system m)) msgs in
        let recent_messages :=
          slice_from (- (max_messages - len system_messages)) non_system_messages in
        system_messages ++ recent_messages
      else slice_from (- max_messages) msgs in
    meta_set "total_messages_before_trim" (VInt (len msgs))
      (meta_set "messages_trimmed" (VInt (len msgs - len kept))
         (set_messages kept st)).

(** The filter configuration; a key that a configuration dictionary lacks
    reads as [false] (and as 10 for the minimum length). *)
Record FilterConfig : Type := {
  filter_greetings : bool;
  filter_short_messages : bool;
  min_message_length : Z;
  filter_repetitive : bool;
  filter_non_actionable : bool;
  preserve_important : bool
}.

Definition default_filter_config : FilterConfig :=
  {| filter_greetings := true; filter_short_messages := true;
     min_message_length := 10; filter_repetitive := true;
     filter_non_actionable := true; preserve_important := true |}.

Definition config_to_dict (c : FilterConfig) : pyval :=
  VDict [("filter_greetings", VBool (filter_greetings c));
         ("filter_short_messages", VBool (filter_short_messages c));
         ("min_message_length", VInt (min_message_length c));
         ("filter_repetitive", VBool (filter_repetitive c));
         ("filter_non_actionable", VBool (filter_non_actionable c));
         ("preserve_important", VBool (preserve_important c))].

Definition greeting_keywords : list string :=
  ["hello"; "hi"; "hey"; "greetings"; "good morning"; "good afternoon"; "good evening"].
Definition farewell_keywords : list string :=
  ["bye"; "goodbye"; "see you"; "talk to you later"; "ttyl"; "farewell"].
Definition non_actionable_keywords : list string :=
  ["ok"; "okay"; "thanks"; "thank you"; "got it"; "understood"; "sure"; "alright"].
Definition important_keywords : list string :=
  ["password"; "reset"; "account"; "billing"; "refund"; "error"; "problem";
   "issue"; "help"; "support"].

(** [getattr(m, 'content', '').lower().strip()] *)
Definition normalized_content (msg : message) : string :=
  Py.strip (Py.lower (content_attr msg)).

(** One iteration of the loop of [filter_messages]: [acc] is
    [filtered_messages] so far. *)
Definition filter_step (exclude_roles : list string) (cfg : FilterConfig)
    (acc : list message) (msg : message) : list message :=
  if type_in exclude_roles msg then acc
  else
    let content := normalized_content msg in
    if is_system msg
       || (preserve_important cfg && Py.any_in important_keywords content)
    then acc ++ [msg]
    else if filter_short_messages cfg
            && (Z.of_nat (String.length content) <? min_message_length cfg)%Z
    then acc
    else if filter_greetings cfg
            && Py.any_in (greeting_keywords ++ farewell_keywords) content
    then acc
    else if filter_non_actionable cfg && Py.mem content non_actionable_keywords
    then acc
    else if filter_repetitive cfg
            && Py.mem content (map normalized_content (slice_from (-3) acc))
    then acc
    else acc ++ [msg].

Definition filtered_messages (exclude_roles : list string) (cfg : FilterConfig)
    (msgs : list message) : list message :=
  fold_left (filter_step exclude_roles cfg) msgs [].

(** [filter_messages]; [None] for an argument is its default. *)
Definition filter_messages (st : AgentState) (exclude_roles : option (list string))
    (filter_config : option FilterConfig) : AgentState :=
  let exclude_roles := default [] exclude_roles in
  let cfg := default default_filter_config filter_config in
  let original_count := len (messages st) in
  let kept := filtered_messages exclude_roles cfg (messages st) in
  meta_set "filter_config_used" (config_to_dict cfg)
    (meta_set "total_messages_before_filter" (VInt original_count)
       (meta_set "messages_filtered" (VInt (original_count - len kept))
          (set_messages kept st))).

(** ** query_processor.py *)

Module QueryProcessor.

(** The double-quote character, which several answers contain. *)
Definition dq : string := String (ascii_of_nat 34) EmptyString.

(** The canned answers of [MockLLMNode]. *)
Definition answer_reset_password : string :=
  "To reset your password:

1. Visit our login page and click " +:+ dq +:+ "Forgot Password?" +:+ dq +:+ "
2. Enter your registered email address
3. Check your email for a password reset link (may take up to 5 minutes)
4. Click the link and create a new secure password
5. Your new password must contain at least 8 characters with uppercase, lowercase, and numbers

If you don't receive the email, check your spam folder or contact support for assistance.".

Definition answer_forgot_password : string :=
  "I can definitely help you recover your password! Here's what to do:

1. Go to the login page and select " +:+ dq +:+ "Forgot Password?" +:+ dq +:+ "
2. Enter the email address associated with your account
3. You'll receive a password reset email within 5 minutes
4. Follow the secure link in the email to create a new password
5. Make sure your new password is strong and unique

If you're having trouble receiving the email, please check your spam folder first.".

Definition answer_account_locked : string :=
  "If your account is locked, here are the steps to unlock it:

1. Wait 15 minutes - temporary locks often resolve automatically
2. Try the " +:+ dq +:+ "Forgot Password?" +:+ dq +:+ " option to reset your credentials
3. Clear your browser cache and cookies, then try logging in again
4. If still locked, it may be due to multiple failed login attempts

For immediate assistance, contact our support team at support@company.com with your username or email address.".

Definition answer_change_password : string :=
  "To change your password while logged in:

1. Go to Account Settings → Security
2. Click on " +:+ dq +:+ "Change Password" +:+ dq +:+ "
3. Enter your current password
4. Create a new secure password (8+ characters, mixed case, numbers)
5. Confirm the new password
6. Click " +:+ dq +:+ "Update Password" +:+ dq +:+ "

You'll receive a confirmation email once the change is successful. For security, you'll be logged out of all devices.".

Definition answer_cannot_log_in : string :=
  "Let's troubleshoot your login issue:

1. **Check your credentials**: Ensure you're using the correct email/username and password
2. **Try password reset**: Use " +:+ dq +:+ "Forgot Password?" +:+ dq +:+ " if you're unsure about your password
3. **Clear browser data**: Clear cache, cookies, and try a different browser
4. **Check account status**: Your account might be temporarily locked
5. **Verify email**: Make sure you've verified your email address

If none of these work, please contact support with your username or registered email.".

Definition answer_invalid_credentials : string :=
  "The " +:+ dq +:+ "invalid credentials" +:+ dq +:+ " error usually means:

1. **Incorrect password**: Try using " +:+ dq +:+ "Forgot Password?" +:+ dq +:+ " to reset it
2. **Wrong email/username**: Double-check you're using the right login credentials
3. **Account not verified**: Check if you need to verify your email address
4. **Caps Lock**: Ensure Caps Lock isn't affecting your password
5. **Browser issues**: Clear cache/cookies or try a different browser

If you're certain your credentials are correct, your account may be locked. Contact support for assistance.".

Definition answer_enable_2fa : string :=
  "To enable two-factor authentication (2FA):

1. Go to Account Settings → Security
2. Find " +:+ dq +:+ "Two-Factor Authentication" +:+ dq +:+ " section
3. Click " +:+ dq +:+ "Enable 2FA" +:+ dq +:+ "
4. Download an authenticator app (Google Authenticator, Authy, etc.)
5. Scan the QR code with your authenticator app
6. Enter the 6-digit code from your app to verify
7. Save your backup codes in a secure location

2FA adds an extra layer of security to protect your account from unauthorized access.".

Definition answer_lost_2fa_device : string :=
  "If you lost your 2FA device, here's how to regain access:

1. **Use backup codes**: If you saved backup codes during 2FA setup, use one of those
2. **Account recovery**: Contact our support team with verification details:
   - Your full name and email address
   - Last known password
   - Recent account activity details
3. **Alternative verification**: We may ask for additional identity verification
4. **Device replacement**: Once verified, we'll help you set up 2FA on a new device

For security reasons, this process may take 24-48 hours to complete.".

Definition answer_email_login : string :=
  "Yes! You can log in using either:

1. **Email address**: Enter your full email address in the username field
2. **Username**: Use your chosen username if you prefer

Both methods work with the same password. If you're having trouble:
- Make sure you're using the correct email format (user@domain.com)
- Try both your email and username to see which one works
- Use " +:+ dq +:+ "Forgot Password?" +:+ dq +:+ " if you're unsure about your password

The system accepts both login methods for your convenience.".

Definition answer_session_timeout : string :=
  "Session timeouts can occur for several reasons:

1. **Inactivity**: Sessions automatically expire after 30 minutes of inactivity for security
2. **Browser settings**: Check if your browser is set to clear cookies/data
3. **Network issues**: Unstable connections can cause session interruptions
4. **Multiple devices**: Logging in from another device may end your current session
5. **Security settings**: Enhanced security settings may reduce session duration

To minimize timeouts:
- Stay active in your account
- Check " +:+ dq +:+ "Remember me" +:+ dq +:+ " if available
- Ensure stable internet connection
- Contact support if timeouts are unusually frequent".

(** [self.mock_responses], in the order of the dictionary. *)
Definition mock_responses : list (string * string) :=
  [("how do i reset my password", answer_reset_password);
   ("i forgot my password can you help", answer_forgot_password);
   ("my account is locked what should i do", answer_account_locked);
   ("how do i change my password", answer_change_password);
   ("i can't log in to my account", answer_cannot_log_in);
   ("why am i getting invalid credentials error", answer_invalid_credentials);
   ("how do i enable two-factor authentication", answer_enable_2fa);
   ("i lost my 2fa device how do i access my account", answer_lost_2fa_device);
   ("can i use my email instead of username to login", answer_email_login);
   ("my session keeps timing out why", answer_session_timeout)].

Definition default_auth_response : string :=
  "I understand you're having an account or authentication issue. Here are some general steps that might help:

1. Try resetting your password using " +:+ dq +:+ "Forgot Password?" +:+ dq +:+ "
2. Clear your browser cache and cookies
3. Check your email for any account notifications
4. Contact our support team if the issue persists

Is there a specific authentication problem you're experiencing?".

(** [MockLLMNode._is_similar_query]: more than half of the words of the
    shorter of the two word sets are shared. *)
Definition _is_similar_query (q reference : string) : bool :=
  let query_words := Py.set_of (Py.split q) in
  let reference_words := Py.set_of (Py.split reference) in
  let overlap := size (query_words ∩ reference_words) in
  let min_length := Nat.min (size query_words) (size reference_words) in
  let similarity_ratio : Q :=
    if (0 <? min_length)%nat
    then (inject_Z (Z.of_nat overlap) / inject_Z (Z.of_nat min_length))%Q
    else 0%Q in
  negb (Qle_bool similarity_ratio (1 # 2)%Q).

(** [self.mock_responses[k]] when [k] is a key. *)
Fixpoint lookup_response (k : string) (d : list (string * string)) : option string :=
  match d with
  | [] => None
  | (k', v) :: r => if String.eqb k k' then Some v else lookup_response k r
  end.

(** The loop of [get_response]: the answer of the first similar key. *)
Fixpoint first_similar (q : string) (d : list (string * string)) : option string :=
  match d with
  | [] => None
  | (k, v) :: r => if _is_similar_query q k then Some v else first_similar q r
  end.

(** [MockLLMNode.get_response] *)
Definition get_response (q : string) : string :=
  let query_lower := Py.strip (Py.lower q) in
  match lookup_response query_lower mock_responses with
  | Some v => v
  | None =>
      match first_similar query_lower mock_responses with
      | Some v => v
      | None => default_auth_response
      end
  end.

Definition complex_indicators : list string :=
  ["refund"; "legal"; "escalate"; "manager"; "complaint";
   "lawsuit"; "security breach"; "data leak"; "unauthorized access";
   "fraud"; "billing dispute"; "cancel subscription"].

Record KBEntry : Type := {
  kb_key : string;
  keywords : list string;
  kb_response : string;
  kb_category : string
}.

Definition kb_password_reset_response : string :=
  "To reset your password:

1. Go to the login page at https://login.techtrendinnovations.com
2. Click on " +:+ dq +:+ "Forgot Password?" +:+ dq +:+ " link
3. Enter your registered email address
4. Check your email for the password reset link
5. Click the link and create a new password
6. Your new password must be at least 8 characters with uppercase, lowercase, and numbers

The reset link expires in 24 hours. If you don't receive the email, please check your spam folder.".

Definition kb_billing_response : string :=
  "For billing-related inquiries:

• View billing details: Account Settings > Billing & Payments
• Download invoices: Billing section > Invoice History
• Update payment method: Settings > Payment Methods
• View subscription plans: Account > Subscription

If you notice any incorrect charges, please provide the transaction ID and date for immediate assistance.".

Definition kb_features_response : string :=
  "I can help you with our features! Here are some quick guides:

• Getting Started Guide: https://docs.techtrendinnovations.com/getting-started
• Feature Tutorials: https://docs.techtrendinnovations.com/features
• Video Walkthroughs: https://learn.techtrendinnovations.com
• API Documentation: https://api.techtrendinnovations.com/docs

Which specific feature would you like to learn about?".

Definition kb_account_response : string :=
  "For account management:

• Edit Profile: Settings > Profile Information
• Security Settings: Settings > Security & Privacy
• Notification Preferences: Settings > Notifications
• Data Export: Settings > Privacy > Export Data
• Account Deletion: Settings > Privacy > Delete Account

What specific account setting would you like to modify?".

Definition kb_technical_issue_response : string :=
  "I'll help you resolve this technical issue. Please provide:

1. Error message (if any)
2. What you were trying to do
3. Browser/device information
4. When the issue started

In the meantime, try these quick fixes:
• Clear browser cache and cookies
• Try a different browser
• Disable browser extensions
• Check your internet connection".

Definition escalation_response : string :=
  "I understand this is an important matter that requires specialized attention. I'm escalating your query to our human support team who will review it and respond within 2 business hours. You'll receive a notification once they've reviewed your case.".

Definition knowledge_base : list KBEntry :=
  [{| kb_key := "password_reset";
     keywords := ["password"; "reset"; "forgot"; "login"; "access"];
     kb_response := kb_password_reset_response;
     kb_category := "account" |};
  {| kb_key := "billing";
     keywords := ["billing"; "payment"; "invoice"; "charge"; "subscription"; "cost"];
     kb_response := kb_billing_response;
     kb_category := "billing" |};
  {| kb_key := "features";
     keywords := ["feature"; "how to"; "tutorial"; "guide"; "use"];
     kb_response := kb_features_response;
     kb_category := "support" |};
  {| kb_key := "account";
     keywords := ["account"; "profile"; "settings"; "preferences"];
     kb_response := kb_account_response;
     kb_category := "account" |};
  {| kb_key := "technical_issue";
     keywords := ["error"; "bug"; "not working"; "crash"; "issue"; "problem"];
     kb_response := kb_technical_issue_response;
     kb_category := "technical" |}].

(** [category in self.knowledge_base], with the entry. *)
Definition kb_lookup (k : string) : option KBEntry :=
  List.find (fun e => String.eqb k (kb_key e)) knowledge_base.

(** One iteration of the loop of [analyze_query]; [best] is [best_match]. *)
Definition analyze_step (query_lower : string) (best : string * nat)
    (e : KBEntry) : string * nat :=
  let score := Py.count_in (keywords e) query_lower in
  if (snd best <? score)%nat then (kb_key e, score) else best.

(** [QueryProcessor.analyze_query] *)
Definition analyze_query (q : string) : string * Q :=
  let query_lower := Py.lower q in
  let best_match :=
    fold_left (analyze_step query_lower) knowledge_base ("general", 0%nat) in
  if (0 <? snd best_match)%nat then
    let c := Qred (inject_Z (Z.of_nat (snd best_match)) / 3)%Q in
    (fst best_match, if Qle_bool c 1 then c else 1%Q)
  else ("general", 0%Q).

(** [QueryProcessor.is_complex_query] *)
Definition is_complex_query (q : string) : bool :=
  let query_lower := Py.lower q in
  if Py.any_in complex_indicators query_lower then true
  else if (2 <? Py.count_char "?" q)%nat then true
  else if Py.isupper q && (20 <? String.length q)%nat then true
  else false.

Definition auth_keywords : list string :=
  ["password"; "login"; "log in"; "sign in"; "access"; "account";
   "credentials"; "locked"; "reset"; "forgot"; "change";
   "2fa"; "two-factor"; "authentication"; "authenticator";
   "session"; "timeout"; "email"; "username"; "invalid"].

(** [QueryProcessor._is_authentication_query] *)
Definition _is_authentication_query (q : string) : bool :=
  Py.any_in auth_keywords (Py.lower q).

Definition common_words : gset string :=
  Py.set_of ["the"; "a"; "an"; "is"; "how"; "what"; "when"; "where"; "can"; "my"; "i"].

(** [QueryProcessor._are_queries_related] *)
Definition _are_queries_related (query1 query2 : string) : bool :=
  let words1 := Py.set_of (Py.findall_words (Py.lower query1)) ∖ common_words in
  let words2 := Py.set_of (Py.findall_words (Py.lower query2)) ∖ common_words in
  let overlap := size (words1 ∩ words2) in
  (2 <=? overlap)%nat.

(** The clarification request, an f-string around the query. *)
Definition clarification_response (q : string) : string :=
  "Thank you for your question about " +:+ dq +:+ q +:+ dq +:+ ". 

I'd be happy to help you with this. Could you please provide more details about:
• What you're trying to accomplish
• Any error messages you're seeing
• When this issue started

This will help me provide you with the most accurate assistance.".

Definition with_history_note (base_response : string) : string :=
  "I see you previously asked about similar topics. " +:+ base_response +:+ "

Based on your history, I can also help with any follow-up questions.".

(** [QueryProcessor._generate_personalized_response] *)
Definition _generate_personalized_response (q category : string) (confidence : Q)
    (history : list UserHistoryEntry) : string :=
  let base_response :=
    match kb_lookup category with
    | Some e =>
        if negb (Qle_bool confidence (3 # 10)%Q) then kb_response e
        else clarification_response q
    | None => clarification_response q
    end in
  let recent_queries := map query (slice_from (-3) history) in
  if existsb (_are_queries_related q) recent_queries
  then with_history_note base_response
  else base_response.

(** The dictionary that [generate_response] returns. *)
Record Response : Type := {
  response : string;
  requires_hitl : bool;
  category : string;
  confidence : Q;
  source : option string
}.

(** [QueryProcessor.generate_response] *)
Definition generate_response (q : string) (history : list UserHistoryEntry) : Response :=
  let '(cat, conf) := analyze_query q in
  if is_complex_query q then
    {| response := escalation_response; requires_hitl := true;
       category := "escalation"; confidence := 1%Q; source := None |}
  else if _is_authentication_query q then
    {| response := get_response q; requires_hitl := false;
       category := "authentication"; confidence := (95 # 100)%Q;
       source := Some "mock_llm" |}
  else
    {| response := _generate_personalized_response q cat conf history;
       requires_hitl := false; category := cat; confidence := conf;
       source := None |}.

(** [ResponseFormatter.format_with_timestamp]; [now] is the formatted
    [datetime.now()]. *)
Definition format_with_timestamp (now : string) (r : string) : string :=
  "[" +:+ now +:+ "]

" +:+ r.

End QueryProcessor.

(** ** memory_manager.py *)

(** A history file holds what [save_long_term_memory] writes, or cannot be
    parsed (a write that failed half-way leaves such a file). *)
Record StoredData : Type := {
  stored_user_id : string;
  stored_user_history : list UserHistoryEntry;
  stored_metadata : pydict;
  last_updated : option string
}.

Inductive FileContent : Type :=
  | Parsed (data : StoredData)
  | Unparsable.

(** What the file system does with one write: it succeeds, [open] fails
    and the file is untouched, or [json.dump] fails after [open] has
    truncated the file. *)
Inductive WriteOutcome : Type := WriteOk | OpenFails | DumpFails.

(** [MemoryManager.get_user_file_path], relative to the storage directory. *)
Definition get_user_file_path (uid : string) : string :=
  "user_" +:+ uid +:+ ".json".

Definition no_data (uid : string) : StoredData :=
  {| stored_user_id := uid; stored_user_history := [];
     stored_metadata := []; last_updated := None |}.

(** [MemoryManager.load_long_term_memory] *)
Definition load_long_term_memory (fs : gmap string FileContent) (uid : string)
    : StoredData :=
  match fs !! get_user_file_path uid with
  | None => no_data uid
  | Some (Parsed data) => data
  | Some Unparsable => no_data uid
  end.

(** [MemoryManager.save_long_term_memory]; [now] is the time of the write. *)
Definition save_long_term_memory (fs : gmap string FileContent) (w : WriteOutcome)
    (now : string) (uid : string) (history : list UserHistoryEntry)
    (md : pydict) : bool * gmap string FileContent :=
  let data := {| stored_user_id := uid; stored_user_history := history;
                 stored_metadata := md; last_updated := Some now |} in
  match w with
  | WriteOk => (true, <[get_user_file_path uid := Parsed data]> fs)
  | OpenFails => (false, fs)
  | DumpFails => (false, <[get_user_file_path uid := Unparsable]> fs)
  end.

(** The validation at the head of [append_to_history]: the arguments as
    typed values when all four checks pass. *)
Definition validate_append (uid q r md : pyval)
    : option (string * string * string * pydict) :=
  match uid with
  | VStr u =>
      if String.eqb (Py.strip u) "" then None
      else match q, r with
           | VStr q', VStr r' =>
               match md with
               | VNone => Some (u, q', r', [])
               | VDict d => Some (u, q', r', d)
               | _ => None
               end
           | _, _ => None
           end
  | _ => None
  end.

(** [MemoryManager.append_to_history]; [t_entry] is the time stamped on the
    entry and [t_saved] the time of the write. *)
Definition append_to_history (fs : gmap string FileContent) (w : WriteOutcome)
    (t_entry t_saved : string) (uid q r md : pyval)
    : bool * gmap string FileContent :=
  match validate_append uid q r md with
  | None => (false, fs)
  | Some (u, q', r', d) =>
      let data := load_long_term_memory fs u in
      let new_entry := {| query := q'; resolution := r'; timestamp := t_entry;
                          entry_metadata := d |} in
      let history := stored_user_history data ++ [new_entry] in
      save_long_term_memory fs w t_saved u history (stored_metadata data)
  end.

(** [MemoryManager.clear_user_history]; [unlink_ok] tells whether the file
    system lets the file go. *)
Definition clear_user_history (fs : gmap string FileContent) (unlink_ok : bool)
    (uid : string) : bool * gmap string FileContent :=
  match fs !! get_user_file_path uid with
  | None => (true, fs)
  | Some _ => if unlink_ok then (true, delete (get_user_file_path uid) fs)
              else (false, fs)
  end.

(** [MemoryManager.get_recent_history] *)
Definition get_recent_history (fs : gmap string FileContent) (uid : string)
    (limit : Z) : list UserHistoryEntry :=
  let history := stored_user_history (load_long_term_memory fs uid) in
  if (limit <? len history)%Z then slice_from (- limit) history else history.

(** ** graph_builder.py *)

(** What one turn reads from the environment: the clock at each of its
    readings and the outcome of the one write. *)
Record TurnEnv : Type := {
  t_created : string;
  t_response : string;
  t_entry : string;
  t_saved : string;
  t_history : string;
  write_outcome : WriteOutcome
}.

(** [state['metadata'].get('current_query', '')]. The key is written by
    [process_query_node] only, with the content of a message, so it holds
    a string whenever it is present. *)
Definition current_query (st : AgentState) : string :=
  match metadata st !! "current_query" with
  | Some (VStr q) => q
  | _ => ""
  end.

(** [state['metadata'].get('response_category')] *)
Definition response_category (st : AgentState) : pyval :=
  default VNone (metadata st !! "response_category").

(** [AgentGraphBuilder.process_query_node] *)
Definition process_query_node (st : AgentState) : AgentState :=
  match last (messages st) with
  | None => st
  | Some latest_message =>
      if has_type "human" latest_message
      then meta_set "current_query" (VStr (content_attr latest_message)) st
      else st
  end.

(** [AgentGraphBuilder.fetch_history_node] *)
Definition fetch_history_node (fs : gmap string FileContent) (st : AgentState)
    : AgentState :=
  if String.eqb (user_id st) "" then st
  else
    let history_data := load_long_term_memory fs (user_id st) in
    let st1 := set_user_history (stored_user_history history_data) st in
    meta_set "history_count" (VInt (len (user_history st1)))
      (meta_set "history_loaded" (VBool true) st1).

(** [AgentGraphBuilder.generate_response_node] *)
Definition generate_response_node (env : TurnEnv) (st : AgentState) : AgentState :=
  let q := current_query st in
  if String.eqb q "" then st
  else
    let result := QueryProcessor.generate_response q (user_history st) in
    let response_message :=
      MsgObj "ai" (QueryProcessor.response result)
        [("category", VStr (QueryProcessor.category result));
         ("confidence", VFloat (QueryProcessor.confidence result));
         ("timestamp",
          VStr (QueryProcessor.format_with_timestamp (t_response env) ""))] in
    meta_set "response_category" (VStr (QueryProcessor.category result))
      (set_requires_hitl (QueryProcessor.requires_hitl result)
         (set_messages (messages st ++ [response_message]) st)).

(** [AgentGraphBuilder.check_hitl_node] *)
Definition check_hitl_node (st : AgentState) : AgentState :=
  if requires_hitl st then
    meta_set "hitl_reason" (VStr "Complex query requiring human review")
      (meta_set "hitl_requested" (VBool true) st)
  else st.

(** The content of the latest message of type ["ai"], or the empty string. *)
Definition latest_ai_content (msgs : list message) : string :=
  match List.find (has_type "ai") (rev msgs) with
  | Some msg => content_attr msg
  | None => ""
  end.

(** [AgentGraphBuilder.save_interaction_node]: the outcome of the write is
    not looked at. *)
Definition save_interaction_node (env : TurnEnv)
    (w : gmap string FileContent * AgentState)
    : gmap string FileContent * AgentState :=
  let '(fs, st) := w in
  let q := current_query st in
  if String.eqb (user_id st) "" || String.eqb q "" then (fs, st)
  else
    let resp := latest_ai_content (messages st) in
    let md := [("category", response_category st);
               ("thread_id", VStr (thread_id st))] in
    let '(_, fs') :=
      append_to_history fs (write_outcome env) (t_entry env) (t_saved env)
        (VStr (user_id st)) (VStr q) (VStr resp) (VDict md) in
    (fs', add_user_history_entry (t_history env) st q resp md).

(** [AgentGraphBuilder.trim_state_node] *)
Definition trim_state_node (st : AgentState) : AgentState :=
  filter_messages (trim_messages st 5 true) None None.

(** [AgentGraphBuilder.route_hitl] *)
Definition route_hitl (st : AgentState) : string :=
  if requires_hitl st then "escalate" else "save".

(** The nodes that [build_graph] adds, and the targets of its edges. *)
Inductive node : Type :=
  | process_query | fetch_history | generate_response
  | check_hitl | save_interaction | trim_state.

Inductive target : Type := To (n : node) | END.

Definition entry_point : node := fetch_history.

(** The edges of [build_graph]; the conditional edge out of [check_hitl]
    maps the answer of [route_hitl]. *)
Definition next_target (n : node) (st : AgentState) : target :=
  match n with
  | fetch_history => To process_query
  | process_query => To generate_response
  | generate_response => To check_hitl
  | check_hitl =>
      if String.eqb (route_hitl st) "save" then To save_interaction else END
  | save_interaction => To trim_state
  | trim_state => END
  end.

(** The function bound to each node. *)
Definition run_node (env : TurnEnv) (n : node)
    (w : gmap string FileContent * AgentState)
    : gmap string FileContent * AgentState :=
  match n with
  | process_query => (w.1, process_query_node w.2)
  | fetch_history => (w.1, fetch_history_node w.1 w.2)
  | generate_response => (w.1, generate_response_node env w.2)
  | check_hitl => (w.1, check_hitl_node w.2)
  | save_interaction => save_interaction_node env w
  | trim_state => (w.1, trim_state_node w.2)
  end.

(** The result of one invocation: the nodes executed, in order, with the
    file system and the state at the end. *)
Record Run : Type := {
  trace : list node;
  final_files : gmap string FileContent;
  final_state : AgentState
}.

(** The engine: run the node, follow its edge, stop at [END]. The state a
    node returns is the state the next node receives. [limit] is the
    number of steps the engine allows; running out of it is its
    recursion error, [None].

    This is one invocation on a thread for which the checkpointer holds
    nothing. What the engine adds on a thread that was run before is not
    part of the run: the messages of earlier turns, which it keeps for the
    thread, and its merging of a returned message list into that list, by
    which a message that [trim_state] drops stays in the list of the
    thread. [final_state] is thus the state that the last node returns. *)
Fixpoint run_graph (limit : nat) (env : TurnEnv) (n : node)
    (w : gmap string FileContent * AgentState) : option Run :=
  match limit with
  | O => None
  | S limit' =>
      let w' := run_node env n w in
      match next_target n w'.2 with
      | END => Some {| trace := [n]; final_files := w'.1; final_state := w'.2 |}
      | To n' =>
          match run_graph limit' env n' w' with
          | None => None
          | Some r => Some {| trace := n :: trace r;
                              final_files := final_files r;
                              final_state := final_state r |}
          end
      end
  end.

(** The default step limit of the engine. *)
Definition recursion_limit : nat := 25.

(** [self.agent.invoke(state, config)], on a thread not run before. *)
Definition invoke (env : TurnEnv) (fs : gmap string FileContent)
    (st : AgentState) : option Run :=
  run_graph recursion_limit env entry_point (fs, st).

(** ** main.py *)

Module CustomerSupportAgent.

(** The dictionary that [process_message] returns, with the keys
    [response], [requires_hitl], [metadata] and [session_id]. *)
Record TurnResult : Type := {
  turn_response : string;
  turn_requires_hitl : bool;
  turn_metadata : gmap string pyval;
  session_id : string
}.

Definition apology : string :=
  "I apologize, but I encountered an issue processing your request.".

(** [CustomerSupportAgent.process_message]: the answer, and the file
    system after the turn, for the first turn of a thread. *)
Definition process_message (env : TurnEnv) (fs : gmap string FileContent)
    (uid tid msg : string) : option (TurnResult * gmap string FileContent) :=
  let st0 := create_initial_state (t_created env) uid tid in
  let st := set_messages (messages st0 ++ [MsgObj "human" msg []]) st0 in
  match invoke env fs st with
  | None => None
  | Some r =>
      let result := final_state r in
      let resp :=
        match List.find (has_type "ai") (rev (messages result)) with
        | Some m => content_attr m
        | None => apology
        end in
      Some ({| turn_response := resp;
               turn_requires_hitl := requires_hitl result;
               turn_metadata := metadata result;
               session_id := uid +:+ "_" +:+ tid |},
            final_files r)
  end.

(** [CustomerSupportAgent.get_user_history] *)
Definition get_user_history (fs : gmap string FileContent) (uid : string)
    (limit : Z) : list UserHistoryEntry :=
  get_recent_history fs uid limit.

Record HitlResult : Type := {
  status : string;
  message_text : string;
  hitl_session_id : string
}.

(** [feedback if feedback else fallback] *)
Definition feedback_or (feedback : option string) (fallback : string) : string :=
  match feedback with
  | Some f => if String.eqb f "" then fallback else f
  | None => fallback
  end.

(** [CustomerSupportAgent.approve_hitl]. The state it builds is local and
    dropped at the return; neither the history files nor the compiled
    graph are consulted. *)
Definition approve_hitl (uid tid : string) (approved : bool)
    (feedback : option string) : HitlResult :=
  let msg :=
    if approved then
      "Your issue has been reviewed and approved. "
      +:+ feedback_or feedback "Our team will contact you with the resolution."
    else
      "Your issue has been reviewed. "
      +:+ feedback_or feedback "Our team will follow up with alternative solutions." in
  {| status := if approved then "approved" else "rejected";
     message_text := msg;
     hitl_session_id := uid +:+ "_" +:+ tid |}.

End CustomerSupportAgent.

(** ** app.py: the review queue of the user interface

    The only record of escalations that wait for a reviewer is the queue
    that the interface keeps in its own session. *)

Record HitlItem : Type := {
  item_query : string;
  item_user_id : string;
  item_thread_id : string;
  item_timestamp : string;
  item_status : string
}.

(** The interface after a turn: an escalated turn joins the queue. *)
Definition enqueue_if_escalated (queue : list HitlItem) (now uid tid q : string)
    (escalated : bool) : list HitlItem :=
  if escalated then
    queue ++ [{| item_query := q; item_user_id := uid; item_thread_id := tid;
                 item_timestamp := now; item_status := "pending" |}]
  else queue.

(** An escalation of this user and thread still waits in the queue. *)
Definition has_pending (queue : list HitlItem) (uid tid : string) : bool :=
  existsb (fun it => String.eqb (item_status it) "pending"
                     && String.eqb (item_user_id it) uid
                     && String.eqb (item_thread_id it) tid) queue.

(** ** Vocabulary of the specification *)

(** The two ways a turn ends: [END] reached from [check_hitl] on the
    answer ["escalate"], or from [trim_state]. *)
Inductive terminal : Type := ESCALATED | DONE.

Definition terminal_of (r : Run) : option terminal :=
  match last (trace r) with
  | Some check_hitl => Some ESCALATED
  | Some trim_state => Some DONE
  | _ => None
  end.

(** The state that reaches [check_hitl]. *)
Definition state_at_check (env : TurnEnv) (fs : gmap string FileContent)
    (st : AgentState) : AgentState :=
  generate_response_node env (process_query_node (fetch_history_node fs st)).

(** The answer of an escalated query. *)
Definition escalation_result : QueryProcessor.Response :=
  {| QueryProcessor.response := QueryProcessor.escalation_response;
     QueryProcessor.requires_hitl := true;
     QueryProcessor.category := "escalation";
     QueryProcessor.confidence := 1%Q;
     QueryProcessor.source := None |}.

(** The messages that [filter_messages] protects. *)
Definition protected (cfg : FilterConfig) (msg : message) : bool :=
  is_system msg
  || (preserve_important cfg
      && Py.any_in important_keywords (normalized_content msg)).

Definition is_dict (msg : message) : bool :=
  match msg with MsgDict _ => true | MsgObj _ _ _ => false end.

(** The last character of a string. *)
Fixpoint last_char (s : string) : option ascii :=
  match s with
  | EmptyString => None
  | String c r => match last_char r with Some d => Some d | None => Some c end
  end.

(** A word that neither [lower] nor [strip] can change inside a text:
    it is in lower case already and starts and ends with a non-blank
    character. *)
Definition solid (t : string) : bool :=
  String.eqb (Py.lower t) t &&
  match t, last_char t with
  | String c _, Some d => negb (Py.is_space_char c) && negb (Py.is_space_char d)
  | _, _ => false
  end.

(** The last [n] elements of a list. *)
Definition lastn {A : Type} (n : nat) (l : list A) : list A :=
  drop (length l - n) l.

(** The word-set overlap ratio of two queries: the number of words they
    share over the number of words of the one that has fewer, and 0 when
    one of them has no word. *)
Definition overlap_ratio (q reference : string) : Q :=
  let shared := size (Py.set_of (Py.split q) ∩ Py.set_of (Py.split reference)) in
  let smaller := Nat.min (size (Py.set_of (Py.split q)))
                         (size (Py.set_of (Py.split reference))) in
  match smaller with
  | O => 0%Q
  | S _ => (Z.of_nat shared # Pos.of_nat smaller)%Q
  end.

(** ** Sample logs *)

Definition sys (c : string) : message := MsgObj "system" c [].
Definition human (c : string) : message := MsgObj "human" c [].
Definition ai (c : string) : message := MsgObj "ai" c [].

Definition sample_state : AgentState :=
  create_initial_state "2024-01-01T00:00:00" "u1" "t1".

(** Five system messages and one human message. *)
Definition full_of_system : AgentState :=
  set_messages [sys "s1"; sys "s2"; sys "s3"; sys "s4"; sys "s5"; human "h1"]
    sample_state.

(** One system message and six human messages. *)
Definition one_system_six_human : AgentState :=
  set_messages [sys "s1"; human "h1"; human "h2"; human "h3"; human "h4";
                human "h5"; human "h6"] sample_state.

(** A message in the legacy shape, with the role "system" and a content
    that names an important keyword. *)
Definition legacy_system_fields : pydict :=
  [("role", VStr "system"); ("content", VStr "Never share the account password.")].

Definition legacy_system : message := MsgDict legacy_system_fields.

Definition legacy_system_log : AgentState :=
  set_messages [legacy_system; human "h1"; human "h2"; human "h3"; human "h4";
                human "h5"] sample_state.

(** A short greeting that asks for help, sent twice. *)
Definition short_greeting_twice : AgentState :=
  set_messages [human "hi help"; human "hi help"] sample_state.

(** ** Well-typed arguments of [append_to_history] *)

Definition is_str (v : pyval) : bool :=
  match v with VStr _ => true | _ => false end.

(** A string with a non-blank character. *)
Definition is_nonblank_str (v : pyval) : bool :=
  match v with VStr s => negb (String.eqb (Py.strip s) "") | _ => false end.

Definition is_none_or_dict (v : pyval) : bool :=
  match v with VNone | VDict _ => true | _ => false end.

(** [metadata or {}] for a metadata that is [None] or a dictionary. *)
Definition metadata_or_empty (v : pyval) : pydict :=
  match v with VDict d => d | _ => [] end.

(** An environment whose write succeeds. *)
Definition sample_env : TurnEnv :=
  {| t_created := "2024-01-01T00:00:00"; t_response := "2024-01-01 00:00:01";
     t_entry := "2024-01-01T00:00:02"; t_saved := "2024-01-01T00:00:03";
     t_history := "2024-01-01T00:00:04"; write_outcome := WriteOk |}.

(** The state of a turn that asks for a refund, and of one that asks how
    to reset a password. *)
Definition refund_turn : AgentState :=
  set_messages [human "I want a refund"] sample_state.

Definition password_turn : AgentState :=
  set_messages [human "how do i reset my password"] sample_state.

(** ** Further functions of the sources *)

(** The result of a call that can raise: the value returned, or the class
    of the exception. *)
Inductive outcome (A : Type) : Type :=
  | Returned (a : A)
  | Raised (exc : string).
Arguments Returned {A} a.
Arguments Raised {A} exc.

(** The dataclass [UserHistoryEntry] as Python has it: the constructor
    checks nothing, so each field holds whatever value it was given. *)
Record RawEntry : Type := {
  raw_query : pyval;
  raw_resolution : pyval;
  raw_timestamp : pyval;
  raw_metadata : pyval
}.

(** The entries this program builds have string fields. *)
Definition raw_of (e : UserHistoryEntry) : RawEntry :=
  {| raw_query := VStr (query e); raw_resolution := VStr (resolution e);
     raw_timestamp := VStr (timestamp e);
     raw_metadata := VDict (entry_metadata e) |}.

(** [UserHistoryEntry.to_dict] *)
Definition to_dict (e : RawEntry) : pydict :=
  [("query", raw_query e); ("resolution", raw_resolution e);
   ("timestamp", raw_timestamp e); ("metadata", raw_metadata e)].

(** [UserHistoryEntry.from_dict]: [data[k]] raises [KeyError] for a
    missing key, [data.get('metadata', {})] does not. *)
Definition from_dict (data : pydict) : outcome RawEntry :=
  match dict_get "query" data, dict_get "resolution" data,
        dict_get "timestamp" data with
  | Some q, Some r, Some t =>
      Returned {| raw_query := q; raw_resolution := r; raw_timestamp := t;
                  raw_metadata := default (VDict []) (dict_get "metadata" data) |}
  | _, _, _ => Raised "KeyError"
  end.

(** [StateValidator.validate_message]: [True], or a [ValueError]. *)
Definition validate_message (msg : message) : outcome bool :=
  match msg with
  | MsgObj _ _ _ => Raised "ValueError"
  | MsgDict d =>
      if negb (dict_has "role" d) then Raised "ValueError"
      else if negb (dict_has "content" d) then Raised "ValueError"
      else match dict_get "role" d with
           | Some (VStr r) =>
               if Py.mem r ["user"; "assistant"; "system"] then Returned true
               else Raised "ValueError"
           | _ => Raised "ValueError"
           end
  end.

(** [StateValidator.validate_and_sanitize_state]: the typed record has
    every field, of its type, so nothing is defaulted and the state is
    validated as it is. *)
Definition validate_and_sanitize_state (st : AgentState) : outcome AgentState :=
  if validate_state st then Returned st else Raised "ValueError".

(** The first [n] characters of a string. *)
Fixpoint take_str (n : nat) (s : string) : string :=
  match n, s with
  | O, _ => EmptyString
  | S _, EmptyString => EmptyString
  | S n', String c r => String c (take_str n' r)
  end.

(** [s[:stop]] for a possibly negative [stop]. *)
Definition slice_to (stop : Z) (s : string) : string :=
  if (stop <? 0)%Z
  then take_str (Z.to_nat (Z.max (Z.of_nat (String.length s) + stop) 0)) s
  else take_str (Z.to_nat stop) s.

Definition truncation_notice : string :=
  "...

[Response truncated. Would you like more details?]".

(** [ResponseFormatter.truncate_long_response] *)
Definition truncate_long_response (r : string) (max_length : Z) : string :=
  if (Z.of_nat (String.length r) <=? max_length)%Z then r
  else slice_to max_length r +:+ truncation_notice.

(** [d[k] = v]: in place for a key that is there, at the end otherwise. *)
Fixpoint dict_set (k : string) (v : pyval) (d : pydict) : pydict :=
  match d with
  | [] => [(k, v)]
  | (k', v') :: r =>
      if String.eqb k k' then (k', v) :: r else (k', v') :: dict_set k v r
  end.

(** [del d[k]] *)
Fixpoint dict_del (k : string) (d : pydict) : pydict :=
  match d with
  | [] => []
  | (k', v') :: r => if String.eqb k k' then r else (k', v') :: dict_del k r
  end.

(** [ExternalMemoryStore]: the state is [self.in_memory_store]. *)
Module ExternalMemoryStore.

Definition save (store : pydict) (key : string) (value : pyval) : bool * pydict :=
  (true, dict_set key value store).

Definition load (store : pydict) (key : string) : option pyval :=
  dict_get key store.

Definition delete (store : pydict) (key : string) : bool * pydict :=
  if dict_has key store then (true, dict_del key store) else (false, store).

Definition list_keys (store : pydict) (prefix : string) : list string :=
  if negb (String.eqb prefix "")
  then List.filter (Py.startswith prefix) (map fst store)
  else map fst store.

End ExternalMemoryStore.

(** The dictionary that [start_session] returns. *)
Record SessionInfo : Type := {
  info_session_id : string;
  info_user_id : string;
  info_thread_id : string;
  history_count : Z;
  info_status : string
}.

(** [CustomerSupportAgent.start_session] *)
Definition start_session (now : string) (fs : gmap string FileContent)
    (uid tid : string) : outcome SessionInfo :=
  match validate_and_sanitize_state (create_initial_state now uid tid) with
  | Raised e => Raised e
  | Returned st =>
      let history_data := load_long_term_memory fs uid in
      let st := set_user_history (stored_user_history history_data) st in
      Returned {| info_session_id := uid +:+ "_" +:+ tid;
                  info_user_id := uid; info_thread_id := tid;
                  history_count := len (user_history st);
                  info_status := "active" |}
  end.

(** Appending the entries of a list, one call each, every write
    succeeding at the time [t_saved]. *)
Definition append_all (fs : gmap string FileContent) (t_saved uid : string)
    (entries : list UserHistoryEntry) : gmap string FileContent :=
  fold_left
    (fun fs e =>
       (append_to_history fs WriteOk (timestamp e) t_saved (VStr uid)
          (VStr (query e)) (VStr (resolution e)) (VDict (entry_metadata e))).2)
    entries fs.

(** The state that [process_message] hands to the graph, and the history
    that [fetch_history_node] then finds for the user. *)
Definition turn_start (env : TurnEnv) (uid tid msg : string) : AgentState :=
  let st0 := create_initial_state (t_created env) uid tid in
  set_messages (messages st0 ++ [MsgObj "human" msg []]) st0.

Definition loaded_history (fs : gmap string FileContent) (uid : string)
    : list UserHistoryEntry :=
  if String.eqb uid "" then []
  else stored_user_history (load_long_term_memory fs uid).

(** The message that [generate_response_node] appends for a result. *)
Definition response_message (env : TurnEnv) (result : QueryProcessor.Response)
    : message :=
  MsgObj "ai" (QueryProcessor.response result)
    [("category", VStr (QueryProcessor.category result));
     ("confidence", VFloat (QueryProcessor.confidence result));
     ("timestamp",
      VStr (QueryProcessor.format_with_timestamp (t_response env) ""))].

(** * Properties *)

(** ** Strings *)

Section StringFacts.
Import Py.

Lemma app_cons (c : ascii) (a b : string) : String c a +:+ b = String c (a +:+ b).
Proof. reflexivity. Qed.

Lemma app_nil_l (b : string) : "" +:+ b = b.
Proof. reflexivity. Qed.

Lemma string_app_assoc (a b c : string) : (a +:+ b) +:+ c = a +:+ (b +:+ c).
Proof. induction a as [|x a IH]; [done|]. by rewrite !app_cons, IH. Qed.

Lemma startswith_spec (t s : string) :
  startswith t s = true <-> exists b, s = t +:+ b.
Proof.
  revert s. induction t as [|a t IH]; intros s.
  - split; [intros _; by exists s | done].
  - destruct s as [|b s]; cbn [startswith].
    + split; [done | intros [x Hx]; discriminate].
    + rewrite andb_true_iff, Ascii.eqb_eq, IH. split.
      * intros [-> [x ->]]. by exists x.
      * intros [x Hx]. rewrite app_cons in Hx. injection Hx as -> ->. eauto.
Qed.

(** [t in s] holds exactly when [s] is [a + t + b] for some [a] and [b]. *)
Lemma contains_spec (t s : string) :
  contains t s = true <-> exists a b, s = a +:+ t +:+ b.
Proof.
  induction s as [|c s IH].
  - cbn [contains]. rewrite orb_false_r, startswith_spec. split.
    + intros [b Hb]. by exists "", b.
    + intros [a [b Hab]]. destruct a; [by exists b | discriminate].
  - cbn [contains]. rewrite orb_true_iff, startswith_spec, IH. split.
    + intros [[b Hb] | [a [b ->]]].
      * by exists "", b.
      * by exists (String c a), b.
    + intros [a [b Hab]]. destruct a as [|x a].
      * left. by exists b.
      * right. rewrite app_cons in Hab. injection Hab as -> ->. by exists a, b.
Qed.

Lemma lower_app (a b : string) : lower (a +:+ b) = lower a +:+ lower b.
Proof.
  induction a as [|x a IH]; [done|].
  rewrite app_cons. cbn [lower]. by rewrite IH.
Qed.

Lemma contains_lower (t s : string) :
  lower t = t -> contains t s = true -> contains t (lower s) = true.
Proof.
  intros Ht. rewrite !contains_spec. intros [a [b ->]].
  exists (lower a), (lower b). by rewrite !lower_app, Ht.
Qed.

Lemma lstrip_keeps (a t b : string) (c : ascii) :
  is_space_char c = false ->
  exists a', lstrip (a +:+ String c t +:+ b) = a' +:+ String c t +:+ b.
Proof.
  intros Hc. induction a as [|x a [a' IH]].
  - exists "". rewrite !app_nil_l, app_cons. cbn [lstrip]. by rewrite Hc.
  - rewrite app_cons. cbn [lstrip].
    destruct (is_space_char x); [by exists a' | by exists (String x a)].
Qed.

Lemma rstrip_head (c : ascii) (b : string) :
  is_space_char c = false -> exists b', rstrip (String c b) = String c b'.
Proof.
  intros Hc. cbn [rstrip]. destruct (rstrip b); [rewrite Hc|]; eauto.
Qed.

Lemma rstrip_app (p q : string) :
  rstrip q <> "" -> rstrip (p +:+ q) = p +:+ rstrip q.
Proof.
  intros Hq. induction p as [|x p IH]; [done|].
  rewrite !app_cons. cbn [rstrip]. rewrite IH.
  destruct (p +:+ rstrip q) eqn:E; [|done].
  destruct p; [|discriminate]. rewrite app_nil_l in E. done.
Qed.

Lemma rstrip_keeps (a t b : string) (c : ascii) :
  is_space_char c = false ->
  exists b', rstrip (a +:+ (t +:+ String c "") +:+ b)
             = a +:+ (t +:+ String c "") +:+ b'.
Proof.
  intros Hc. destruct (rstrip_head c b Hc) as [b' Hb'].
  exists b'.
  replace (a +:+ (t +:+ String c "") +:+ b) with ((a +:+ t) +:+ String c b)
    by (rewrite !string_app_assoc; done).
  rewrite rstrip_app by (rewrite Hb'; done).
  rewrite Hb', !string_app_assoc. done.
Qed.

Lemma last_char_split (s : string) (d : ascii) :
  last_char s = Some d -> exists p, s = p +:+ String d "".
Proof.
  revert d. induction s as [|c s IH]; intros d; [done|].
  cbn [last_char]. destruct (last_char s) as [e|] eqn:E.
  - intros [= ->]. destruct (IH _ eq_refl) as [p ->]. by exists (String c p).
  - intros [= ->]. destruct s; [by exists "" | ].
    cbn [last_char] in E. by destruct (last_char s).
Qed.

(** A solid word of a text is still there after [lower] and [strip]. *)
Lemma contains_normalized (t s : string) :
  solid t = true -> contains t s = true \/ contains t (lower s) = true ->
  contains t (strip (lower s)) = true.
Proof.
  unfold solid. rewrite andb_true_iff, String.eqb_eq. intros [Hl Hs] Hc.
  assert (Hin : contains t (lower s) = true)
    by (destruct Hc; [by apply contains_lower | done]).
  clear Hc. revert Hin. generalize (lower s). clear s. intros s.
  destruct t as [|c t']; [done|].
  destruct (last_char (String c t')) as [d|] eqn:Hd; [|done].
  rewrite andb_true_iff, !negb_true_iff in Hs. destruct Hs as [Hc Hd'].
  rewrite !contains_spec. intros [a [b ->]].
  destruct (lstrip_keeps a t' b c Hc) as [a' Ha].
  unfold strip. rewrite Ha.
  destruct (last_char_split _ _ Hd) as [p Hp]. rewrite Hp.
  destruct (rstrip_keeps a' p b d Hd') as [b' Hb]. rewrite Hb. eauto.
Qed.

Lemma any_in_intro (ks : list string) (k s : string) :
  In k ks -> contains k s = true -> any_in ks s = true.
Proof. intros Hk Hc. apply existsb_exists. eauto. Qed.

End StringFacts.

(** ** Classifier and response generator *)

Section Classifier.
Import Py QueryProcessor.

Lemma complex_indicators_solid : forallb solid complex_indicators = true.
Proof. vm_compute. reflexivity. Qed.

Lemma solid_lower (t : string) : solid t = true -> lower t = t.
Proof.
  unfold solid. rewrite andb_true_iff, String.eqb_eq. by intros [-> _].
Qed.

(** Each of the three triggers makes [is_complex_query] answer [True]. *)
Lemma is_complex_query_triggers (q : string) :
  (exists t, In t complex_indicators /\
             (contains t q = true \/ contains t (lower q) = true))
  \/ (2 < count_char "?" q)%nat
  \/ (isupper q = true /\ (20 < String.length q)%nat) ->
  is_complex_query q = true.
Proof.
  intros H. unfold is_complex_query.
  destruct (any_in complex_indicators (lower q)) eqn:Hany; [done|].
  destruct H as [[t [Ht Hc]] | [Hq | [Hu Hl]]].
  - assert (Hs : solid t = true).
    { pose proof complex_indicators_solid as Hall.
      rewrite forallb_forall in Hall. by apply Hall. }
    assert (contains t (lower q) = true) as Hin.
    { destruct Hc as [Hc|Hc]; [|done].
      apply contains_lower; [by apply solid_lower | done]. }
    rewrite (any_in_intro _ _ _ Ht Hin) in Hany. discriminate.
  - apply Nat.ltb_lt in Hq. by rewrite Hq.
  - apply Nat.ltb_lt in Hl. rewrite Hu, Hl.
    by destruct (2 <? count_char "?" q)%nat.
Qed.

(** Conversely, [is_complex_query] answers [True] for no other query. *)
Lemma is_complex_query_only_triggers (q : string) :
  is_complex_query q = true ->
  (exists t, In t complex_indicators /\ contains t (lower q) = true)
  \/ (2 < count_char "?" q)%nat
  \/ (isupper q = true /\ (20 < String.length q)%nat).
Proof.
  unfold is_complex_query.
  destruct (any_in complex_indicators (lower q)) eqn:Hany.
  - intros _. left. apply existsb_exists in Hany. destruct Hany as [t [? ?]]. eauto.
  - destruct (2 <? count_char "?" q)%nat eqn:Hq.
    + intros _. right. left. by apply Nat.ltb_lt.
    + destruct (isupper q) eqn:Hu; [|done].
      destruct (20 <? String.length q)%nat eqn:Hl; [|done].
      intros _. right. right. split; [done | by apply Nat.ltb_lt].
Qed.

(** C1. A query that contains an escalation-trigger term (in any case),
    or more than two question marks, or that is upper-case and longer than
    20 characters, gets the escalation answer: review required, category
    "escalation", confidence 1. The check comes first: the answer is the
    same whatever [analyze_query] scores and whether or not the query is
    an authentication query. *)
Theorem escalation_takes_precedence (q : string) (history : list UserHistoryEntry) :
  (exists t, In t complex_indicators /\
             (contains t q = true \/ contains t (lower q) = true))
  \/ (2 < count_char "?" q)%nat
  \/ (isupper q = true /\ (20 < String.length q)%nat) ->
  generate_response q history = escalation_result
  /\ requires_hitl (generate_response q history) = true
  /\ category (generate_response q history) = "escalation"
  /\ confidence (generate_response q history) = 1%Q.
Proof.
  intros H. apply is_complex_query_triggers in H.
  assert (generate_response q history = escalation_result) as ->; [|done].
  unfold generate_response. destruct (analyze_query q) as [cat conf].
  by rewrite H.
Qed.

(** The scenario of the specification: an upper-case password question
    with three question marks is an authentication query that scores on
    keywords, and it is escalated all the same. *)
Lemma escalation_takes_precedence_witness :
  _is_authentication_query "HOW DO I RESET MY PASSWORD???" = true
  /\ fst (analyze_query "HOW DO I RESET MY PASSWORD???") = "password_reset"
  /\ generate_response "HOW DO I RESET MY PASSWORD???" [] = escalation_result
  /\ requires_hitl (generate_response "HOW DO I RESET MY PASSWORD???" []) = true
  /\ category (generate_response "HOW DO I RESET MY PASSWORD???" []) = "escalation"
  /\ confidence (generate_response "HOW DO I RESET MY PASSWORD???" []) = 1%Q.
Proof.
  split; [vm_compute; reflexivity|]. split; [vm_compute; reflexivity|].
  apply (escalation_takes_precedence "HOW DO I RESET MY PASSWORD???" []).
  right. left. vm_compute. lia.
Defined.

Lemma lookup_response_In (k v : string) (d : list (string * string)) :
  lookup_response k d = Some v -> In (k, v) d.
Proof.
  induction d as [|[k' v'] d IH]; [done|]. cbn [lookup_response].
  destruct (String.eqb k k') eqn:E.
  - apply String.eqb_eq in E. intros [= ->]. subst. by left.
  - intros H. right. auto.
Qed.

Lemma first_similar_Some (q v : string) (d : list (string * string)) :
  first_similar q d = Some v ->
  exists k, In (k, v) d /\ _is_similar_query q k = true.
Proof.
  induction d as [|[k' v'] d IH]; [done|]. cbn [first_similar].
  destruct (_is_similar_query q k') eqn:E.
  - intros [= ->]. exists k'. split; [by left | done].
  - intros H. destruct (IH H) as [k [? ?]]. exists k. split; [by right | done].
Qed.

Lemma first_similar_None (q : string) (d : list (string * string)) :
  first_similar q d = None ->
  forall k a, In (k, a) d -> _is_similar_query q k = false.
Proof.
  induction d as [|[k' v'] d IH]; [done|]. cbn [first_similar].
  destruct (_is_similar_query q k') eqn:E; [done|].
  intros H k a [[= <- <-] | Hin]; [done | by eapply IH].
Qed.

(** Every key of the catalog is similar to itself. *)
Lemma catalog_keys_self_similar :
  forallb (fun kv => _is_similar_query kv.1 kv.1) mock_responses = true.
Proof. vm_compute. reflexivity. Qed.

(** [_is_similar_query] in numbers: both word sets are non-empty and the
    shared words are more than half of the smaller set. *)
Lemma _is_similar_query_ratio (q reference : string) :
  let shared := size (set_of (split q) ∩ set_of (split reference)) in
  let smaller := Nat.min (size (set_of (split q))) (size (set_of (split reference))) in
  _is_similar_query q reference = true <->
  (0 < smaller)%nat /\ (smaller < 2 * shared)%nat.
Proof.
  intros shared smaller. unfold _is_similar_query.
  fold shared. fold smaller.
  rewrite negb_true_iff, <- not_true_iff_false, Qle_bool_iff.
  destruct (0 <? smaller)%nat eqn:E.
  - apply Nat.ltb_lt in E.
    unfold Qle, Qdiv, Qmult, Qinv, inject_Z. cbn [Qnum Qden].
    destruct (Z.of_nat smaller) as [|p|p] eqn:Ep; [lia| |lia].
    cbn [Qnum Qden]. lia.
  - apply Nat.ltb_ge in E. split; [intros H; exfalso; apply H; done | lia].
Qed.

(** [_is_similar_query] holds exactly when the overlap ratio is above one
    half. *)
Lemma _is_similar_query_overlap (q reference : string) :
  (_is_similar_query q reference = true
   <-> (1 # 2 < overlap_ratio q reference)%Q)
  /\ (_is_similar_query q reference = false
      <-> (overlap_ratio q reference <= 1 # 2)%Q).
Proof.
  assert (H : _is_similar_query q reference = true
              <-> (1 # 2 < overlap_ratio q reference)%Q).
  { rewrite _is_similar_query_ratio. unfold overlap_ratio.
    destruct (Nat.min (size (set_of (split q))) (size (set_of (split reference))))
      as [|n] eqn:E.
    - split; [lia | intros H; discriminate H].
    - unfold Qlt. cbn [Qnum Qden]. lia. }
  split; [exact H|].
  rewrite <- not_true_iff_false, H. split.
  - apply Qnot_lt_le.
  - apply Qle_not_lt.
Qed.

(** C7. The exact lower-case query "how do i reset my password" is not
    escalated, takes the authentication path and gets the canned
    password-reset script of five steps, without review. More generally an
    authentication query that is not escalated gets the answer of a catalog
    entry whose word-set overlap ratio with the query exceeds one half (the
    entry equal to the query when there is one, else the first such entry),
    and the generic troubleshooting answer when the overlap ratio of every
    entry is at most one half. *)
Theorem authentication_path :
  (forall history,
      is_complex_query "how do i reset my password" = false
      /\ generate_response "how do i reset my password" history
         = {| response := answer_reset_password; requires_hitl := false;
              category := "authentication"; confidence := (95 # 100)%Q;
              source := Some "mock_llm" |}
      /\ contains "5. Your new password must contain" answer_reset_password = true
      /\ contains "6. " answer_reset_password = false)
  /\ (forall q history,
        is_complex_query q = false -> _is_authentication_query q = true ->
        let r := generate_response q history in
        let query_lower := strip (lower q) in
        requires_hitl r = false
        /\ category r = "authentication"
        /\ source r = Some "mock_llm"
        /\ ((exists k, In (k, response r) mock_responses
                       /\ _is_similar_query query_lower k = true
                       /\ (1 # 2 < overlap_ratio query_lower k)%Q
                       /\ (k = query_lower
                           \/ lookup_response query_lower mock_responses = None
                              /\ first_similar query_lower mock_responses
                                 = Some (response r)))
            \/ ((forall k a, In (k, a) mock_responses ->
                             _is_similar_query query_lower k = false
                             /\ (overlap_ratio query_lower k <= 1 # 2)%Q)
                /\ response r = default_auth_response))).
Proof.
  split.
  - intros history. split; [vm_compute; reflexivity|].
    split; [|split; vm_compute; reflexivity].
    unfold generate_response.
    destruct (analyze_query "how do i reset my password") as [cat conf].
    replace (is_complex_query "how do i reset my password") with false
      by (vm_compute; reflexivity).
    replace (_is_authentication_query "how do i reset my password") with true
      by (vm_compute; reflexivity).
    f_equal.
  - intros q history Hc Ha r query_lower.
    assert (Hr : r = {| response := get_response q; requires_hitl := false;
                        category := "authentication"; confidence := (95 # 100)%Q;
                        source := Some "mock_llm" |}).
    { unfold r, generate_response. destruct (analyze_query q) as [cat conf].
      by rewrite Hc, Ha. }
    rewrite Hr. cbn [requires_hitl category source response].
    do 3 (split; [done|]).
    unfold get_response. fold query_lower.
    destruct (lookup_response query_lower mock_responses) as [v|] eqn:Hl.
    + left. exists query_lower. apply lookup_response_In in Hl.
      split; [done|].
      assert (Hs : _is_similar_query query_lower query_lower = true).
      { pose proof catalog_keys_self_similar as Hall.
        rewrite forallb_forall in Hall. apply (Hall _ Hl). }
      split; [done|].
      split; [by apply (proj1 (_is_similar_query_overlap _ _)) | by left].
    + destruct (first_similar query_lower mock_responses) as [v|] eqn:Hf.
      * left. destruct (first_similar_Some _ _ _ Hf) as [k [Hin Hs]].
        exists k. split; [done|]. split; [done|].
        split; [by apply (proj1 (_is_similar_query_overlap _ _)) | by right].
      * right. split; [|done]. intros k a Hin.
        pose proof (first_similar_None _ _ Hf k a Hin) as Hs.
        split; [done|]. by apply (proj2 (_is_similar_query_overlap _ _)).
Qed.

(** A reworded password question: no catalog key equals it, it shares
    five words with the first key, which has six, and the answer of that
    key is returned. A request that shares just one of its two words with a
    key stays at one half and gets the generic answer. *)
Lemma authentication_path_witness :
  requires_hitl (generate_response "how can i reset my password please" []) = false
  /\ (exists k,
        In (k, response (generate_response "how can i reset my password please" []))
          mock_responses
        /\ (1 # 2 < overlap_ratio "how can i reset my password please" k)%Q)
  /\ response (generate_response "how can i reset my password please" [])
     = answer_reset_password
  /\ lookup_response "how can i reset my password please" mock_responses = None
  /\ overlap_ratio "how can i reset my password please" "how do i reset my password"
     = (5 # 6)%Q
  /\ overlap_ratio "email me" "can i use my email instead of username to login"
     = (1 # 2)%Q
  /\ response (generate_response "email me" []) = default_auth_response.
Proof.
  destruct authentication_path as [_ H].
  destruct (H "how can i reset my password please" [])
    as (H1 & _ & _ & [(k & Hin & _ & Hk & _) | [_ Hd]]);
    [vm_compute; reflexivity | vm_compute; reflexivity | |].
  - split; [exact H1|]. split; [exists k; split; [exact Hin | exact Hk]|].
    repeat split; vm_compute; reflexivity.
  - exfalso. revert Hd. vm_compute. discriminate.
Defined.

End Classifier.

(** ** Context manager: trim *)

Section Trim.

Lemma slice_from_neg {A : Type} (k : nat) (l : list A) :
  (0 < k)%nat -> slice_from (- Z.of_nat k) l = lastn k l.
Proof.
  intros Hk. unfold slice_from, lastn.
  replace (- Z.of_nat k <? 0)%Z with true by (symmetry; apply Z.ltb_lt; lia).
  f_equal. lia.
Qed.

Lemma length_lastn {A : Type} (k : nat) (l : list A) :
  length (lastn k l) = Nat.min k (length l).
Proof. unfold lastn. rewrite length_drop. lia. Qed.

Lemma filter_is_system_partition (msgs : list message) :
  (length (List.filter is_system msgs)
   + length (List.filter (fun m => negb (is_system m)) msgs) = length msgs)%nat.
Proof.
  induction msgs as [|m msgs IH]; [done|]. cbn [List.filter].
  destruct (is_system m); cbn [negb length]; lia.
Qed.

(** A log of at most [max_messages] messages is left as it is. *)
Lemma trim_messages_noop (st : AgentState) (max_messages : Z) (preserve : bool) :
  (len (messages st) <= max_messages)%Z ->
  trim_messages st max_messages preserve = st.
Proof.
  intros H. unfold trim_messages.
  by replace (len (messages st) <=? max_messages)%Z with true
    by (symmetry; apply Z.leb_le; done).
Qed.

(** While there are fewer system messages than [max_messages], a longer
    log is cut to the system messages followed by the most recent
    non-system ones, [max_messages] in all, and the metadata records the
    number removed and the number before. *)
Lemma trim_messages_with_room (st : AgentState) (max_messages : nat) :
  let msgs := messages st in
  let system_messages := List.filter is_system msgs in
  let non_system_messages := List.filter (fun m => negb (is_system m)) msgs in
  let st' := trim_messages st (Z.of_nat max_messages) true in
  (max_messages < length msgs)%nat ->
  (length system_messages < max_messages)%nat ->
  messages st'
  = system_messages
    ++ lastn (max_messages - length system_messages) non_system_messages
  /\ length (messages st') = max_messages
  /\ metadata st' !! "messages_trimmed"
     = Some (VInt (Z.of_nat (length msgs - max_messages)))
  /\ metadata st' !! "total_messages_before_trim"
     = Some (VInt (Z.of_nat (length msgs))).
Proof.
  intros msgs system_messages non_system_messages st' Hlen Hsys.
  pose proof (filter_is_system_partition msgs) as Hpart.
  fold system_messages non_system_messages in Hpart.
  assert (Hm : messages st'
               = system_messages
                 ++ lastn (max_messages - length system_messages) non_system_messages).
  { unfold st', trim_messages.
    replace (len (messages st) <=? Z.of_nat max_messages)%Z with false
      by (symmetry; apply Z.leb_gt; unfold len; fold msgs; lia).
    cbn [meta_set set_metadata set_messages messages].
    fold msgs system_messages non_system_messages. f_equal.
    replace (- (Z.of_nat max_messages - len system_messages))%Z
      with (- Z.of_nat (max_messages - length system_messages))%Z
      by (unfold len; lia).
    apply slice_from_neg. lia. }
  assert (Hl : length (messages st') = max_messages).
  { rewrite Hm, length_app, length_lastn. lia. }
  split; [done|]. split; [done|].
  assert (Hmeta : metadata st'
    = <["total_messages_before_trim" := VInt (len msgs)]>
        (<["messages_trimmed" := VInt (len msgs - len (messages st'))]> (metadata st))).
  { unfold st', trim_messages.
    replace (len (messages st) <=? Z.of_nat max_messages)%Z with false
      by (symmetry; apply Z.leb_gt; unfold len; fold msgs; lia).
    reflexivity. }
  rewrite Hmeta. split.
  - rewrite lookup_insert_ne by done. rewrite lookup_insert_eq.
    do 2 f_equal. unfold len. rewrite Hl. lia.
  - by rewrite lookup_insert_eq.
Qed.

Lemma filter_none_system (msgs : list message) :
  forallb (fun m => negb (is_system m)) msgs = true ->
  List.filter is_system msgs = [].
Proof.
  induction msgs as [|m l IH]; [done|]. cbn [forallb List.filter].
  rewrite andb_true_iff, negb_true_iff. intros [-> H]. auto.
Qed.

Lemma filter_all_non_system (msgs : list message) :
  forallb (fun m => negb (is_system m)) msgs = true ->
  List.filter (fun m => negb (is_system m)) msgs = msgs.
Proof.
  induction msgs as [|m l IH]; [done|]. cbn [forallb List.filter].
  rewrite andb_true_iff. intros [-> H]. f_equal. auto.
Qed.

(** The scenario of the specification: seven non-system messages and a
    limit of five leave the last five, in order, and count two removed. *)
Lemma trim_messages_seven_of_five (st : AgentState) (m1 m2 m3 m4 m5 m6 m7 : message) :
  messages st = [m1; m2; m3; m4; m5; m6; m7] ->
  forallb (fun m => negb (is_system m)) (messages st) = true ->
  messages (trim_messages st 5 true) = [m3; m4; m5; m6; m7]
  /\ metadata (trim_messages st 5 true) !! "messages_trimmed" = Some (VInt 2).
Proof.
  intros Hm Hns.
  pose proof (filter_none_system _ Hns) as Hnone.
  pose proof (filter_all_non_system _ Hns) as Hall.
  destruct (trim_messages_with_room st 5) as (H1 & _ & H3 & _).
  - rewrite Hm. cbn. lia.
  - rewrite Hnone. cbn. lia.
  - change (Z.of_nat 5) with 5%Z in *. split.
    + rewrite H1, Hnone, Hall, Hm. reflexivity.
    + rewrite H3, Hm. reflexivity.
Qed.

(** C3. When the system messages alone reach the limit, the slice
    [non_system_messages[-0:]] is the whole list: of five system messages
    and one human message under the limit of five, the human message (none
    of the [5 - 5] most recent non-system messages) stays, six messages
    remain and the metadata counts zero removed. *)
Theorem trim_messages_at_system_quota :
  (len (messages full_of_system) <=? 5)%Z = false
  /\ messages (trim_messages full_of_system 5 true) = messages full_of_system
  /\ length (messages (trim_messages full_of_system 5 true)) = 6%nat
  /\ metadata (trim_messages full_of_system 5 true) !! "messages_trimmed"
     = Some (VInt 0)
  /\ metadata (trim_messages full_of_system 5 true) !! "total_messages_before_trim"
     = Some (VInt 6).
Proof. repeat split; vm_compute; reflexivity. Qed.

(** With more system messages than the limit the slice starts at a
    positive index and drops the oldest non-system messages instead of
    keeping the newest: trimming twice removes more than trimming once. *)
Lemma trim_messages_not_idempotent_past_quota :
  let st := set_messages [sys "s1"; sys "s2"; sys "s3"; human "h1"; human "h2"; human "h3"]
              sample_state in
  messages (trim_messages st 2 true)
  = [sys "s1"; sys "s2"; sys "s3"; human "h2"; human "h3"]
  /\ messages (trim_messages (trim_messages st 2 true) 2 true)
     = [sys "s1"; sys "s2"; sys "s3"; human "h3"].
Proof. split; vm_compute; reflexivity. Qed.

Lemma slice_from_is_drop {A : Type} (z : Z) (l : list A) :
  exists n, slice_from z l = drop n l.
Proof. unfold slice_from. destruct (z <? 0)%Z; eauto. Qed.

Lemma In_drop {A : Type} (n : nat) (l : list A) (x : A) :
  In x (drop n l) -> In x l.
Proof.
  intros H. rewrite <- (firstn_skipn n l). apply in_or_app. by right.
Qed.

Lemma filter_fixed {A : Type} (f : A -> bool) (l : list A) :
  (forall x, In x l -> f x = true) -> List.filter f l = l.
Proof.
  induction l as [|x l IH]; [done|]. intros H. cbn [List.filter].
  rewrite (H x (or_introl eq_refl)). f_equal. apply IH. intros y Hy. apply H. by right.
Qed.

Lemma filter_empty {A : Type} (f : A -> bool) (l : list A) :
  (forall x, In x l -> f x = false) -> List.filter f l = [].
Proof.
  induction l as [|x l IH]; [done|]. intros H. cbn [List.filter].
  rewrite (H x (or_introl eq_refl)). apply IH. intros y Hy. apply H. by right.
Qed.

(** The system messages of the trimmed log are those of the log. *)
Lemma trim_messages_system_part (st : AgentState) (max_messages : Z) :
  List.filter is_system (messages (trim_messages st max_messages true))
  = List.filter is_system (messages st).
Proof.
  unfold trim_messages. destruct (len (messages st) <=? max_messages)%Z; [done|].
  cbn [meta_set set_metadata set_messages messages].
  destruct (slice_from_is_drop
              (- (max_messages - len (List.filter is_system (messages st))))
              (List.filter (fun m => negb (is_system m)) (messages st))) as [n ->].
  rewrite List.filter_app.
  rewrite (filter_empty is_system (drop n _)).
  - rewrite app_nil_r. apply filter_fixed.
    intros x Hx. apply filter_In in Hx. tauto.
  - intros x Hx. apply In_drop, filter_In in Hx. destruct Hx as [_ Hx].
    by apply negb_true_iff.
Qed.

(** C4, amended. Trimming with [preserve_system] never removes a message
    object of type "system", whatever the limit and however many
    non-system messages there are: the system messages of the result are
    those of the log, in number and order. (A plain dictionary is not
    recognised as a system message, whatever its role.) *)
Theorem trim_messages_keeps_system_objects (st : AgentState) (max_messages : Z)
    (msg : message) :
  In msg (messages st) -> is_system msg = true ->
  In msg (messages (trim_messages st max_messages true))
  /\ List.filter is_system (messages (trim_messages st max_messages true))
     = List.filter is_system (messages st).
Proof.
  intros Hin Hsys. split; [|apply trim_messages_system_part].
  assert (H : In msg (List.filter is_system
                        (messages (trim_messages st max_messages true)))).
  { rewrite trim_messages_system_part. apply filter_In. done. }
  by apply filter_In in H as [H _].
Qed.

(** One system message and six human messages under the limit of five:
    the non-system messages alone exceed the limit, and the system message
    stays. *)
Lemma trim_messages_keeps_system_objects_witness :
  In (sys "s1") (messages (trim_messages one_system_six_human 5 true))
  /\ messages (trim_messages one_system_six_human 5 true)
     = [sys "s1"; human "h3"; human "h4"; human "h5"; human "h6"].
Proof.
  split.
  - apply (trim_messages_keeps_system_objects one_system_six_human 5 (sys "s1")).
    + vm_compute. tauto.
    + reflexivity.
  - vm_compute. reflexivity.
Defined.

(** A dictionary whose role is "system", which the state validator
    accepts, is trimmed away like any non-system message. *)
Lemma trim_messages_drops_system_dict :
  validate_state legacy_system_log = true
  /\ In legacy_system (messages legacy_system_log)
  /\ dict_get "role" legacy_system_fields = Some (VStr "system")
  /\ ~ In legacy_system (messages (trim_messages legacy_system_log 5 true)).
Proof.
  split; [vm_compute; reflexivity|]. split; [vm_compute; tauto|].
  split; [reflexivity|]. vm_compute. intros H.
  repeat (destruct H as [H|H]; [discriminate H|]). exact H.
Qed.

End Trim.

(** ** Context manager: filter *)

Section Filter.
Import Py.

Lemma important_keywords_solid : forallb solid important_keywords = true.
Proof. vm_compute. reflexivity. Qed.

Lemma type_in_nil (msg : message) : type_in [] msg = false.
Proof. by destruct msg. Qed.

(** A protected message that is not excluded by role is appended. *)
Lemma filter_step_protected (excl : list string) (cfg : FilterConfig)
    (acc : list message) (msg : message) :
  type_in excl msg = false -> protected cfg msg = true ->
  filter_step excl cfg acc msg = acc ++ [msg].
Proof.
  unfold filter_step, protected. intros -> H. by rewrite H.
Qed.

(** Each iteration appends the message or leaves the list alone. *)
Lemma filter_step_cases (excl : list string) (cfg : FilterConfig)
    (acc : list message) (msg : message) :
  filter_step excl cfg acc msg = acc \/ filter_step excl cfg acc msg = acc ++ [msg].
Proof.
  unfold filter_step.
  repeat match goal with
         | |- context [if ?b then _ else _] => destruct b
         end; auto.
Qed.

(** Without excluded roles the protected messages pass through the loop
    untouched, in number and order. *)
Lemma fold_filter_step_protected (cfg : FilterConfig) (msgs acc : list message) :
  List.filter (protected cfg) (fold_left (filter_step [] cfg) msgs acc)
  = List.filter (protected cfg) acc ++ List.filter (protected cfg) msgs.
Proof.
  revert acc. induction msgs as [|m msgs IH]; intros acc.
  - cbn. by rewrite app_nil_r.
  - cbn [fold_left List.filter]. rewrite IH.
    destruct (protected cfg m) eqn:Hp.
    + rewrite filter_step_protected by (done || apply type_in_nil).
      rewrite List.filter_app. cbn [List.filter]. rewrite Hp.
      by rewrite <- app_assoc.
    + destruct (filter_step_cases [] cfg acc m) as [-> | ->]; [done|].
      rewrite List.filter_app. cbn [List.filter]. rewrite Hp.
      by rewrite app_nil_r.
Qed.

Lemma filter_messages_messages (st : AgentState) (excl : option (list string))
    (cfg : option FilterConfig) :
  messages (filter_messages st excl cfg)
  = filtered_messages (default [] excl) (default default_filter_config cfg)
      (messages st).
Proof. reflexivity. Qed.

(** What the words of the claim mean for a message object: it is of type
    "system", or its content names an important keyword in any case. *)
Lemma protected_object (ty c : string) (kw : pydict) :
  ty = "system"
  \/ (exists k, In k important_keywords
                /\ (contains k c = true \/ contains k (lower c) = true)) ->
  protected default_filter_config (MsgObj ty c kw) = true.
Proof.
  unfold protected. intros [-> | [k [Hk Hc]]]; [done|].
  apply orb_true_iff. right. cbn [preserve_important default_filter_config andb].
  apply (any_in_intro _ k); [done|].
  unfold normalized_content. cbn [content_attr].
  apply contains_normalized; [|done].
  pose proof important_keywords_solid as Hall.
  rewrite forallb_forall in Hall. by apply Hall.
Qed.

(** C5, amended. With the default configuration and no excluded role the
    filter never removes a message object that is of type "system" or whose
    content names an important keyword, be it short, a greeting, a
    non-actionable phrase or a duplicate of a recent message: the protected
    messages of the result are those of the log, in number and order. *)
Theorem filter_messages_keeps_protected_objects (st : AgentState)
    (ty c : string) (kw : pydict) :
  In (MsgObj ty c kw) (messages st) ->
  ty = "system"
  \/ (exists k, In k important_keywords
                /\ (contains k c = true \/ contains k (lower c) = true)) ->
  In (MsgObj ty c kw) (messages (filter_messages st None None))
  /\ List.filter (protected default_filter_config)
       (messages (filter_messages st None None))
     = List.filter (protected default_filter_config) (messages st).
Proof.
  intros Hin Hp. apply protected_object with (kw := kw) in Hp.
  rewrite filter_messages_messages. cbn [default]. unfold filtered_messages.
  pose proof (fold_filter_step_protected default_filter_config (messages st) [])
    as Hf.
  cbn [List.filter app] in Hf. split; [|done].
  assert (H : In (MsgObj ty c kw)
                (List.filter (protected default_filter_config)
                   (fold_left (filter_step [] default_filter_config)
                      (messages st) []))).
  { rewrite Hf. apply filter_In. done. }
  apply filter_In in H. tauto.
Qed.

(** A message of seven characters that opens with a greeting and is sent
    twice: both copies stay, since it asks for help. *)
Lemma filter_messages_keeps_protected_objects_witness :
  In (human "hi help") (messages (filter_messages short_greeting_twice None None))
  /\ messages (filter_messages short_greeting_twice None None)
     = [human "hi help"; human "hi help"]
  /\ messages (filter_messages
                 (set_messages [human "hi there"; human "hi there"] sample_state)
                 None None) = [].
Proof.
  split; [|split; vm_compute; reflexivity].
  apply (filter_messages_keeps_protected_objects short_greeting_twice
           "human" "hi help" []).
  - vm_compute. tauto.
  - right. exists "help". split; [vm_compute; tauto|]. left. vm_compute. reflexivity.
Defined.

(** A dictionary with the role "system" and an important keyword in its
    content, accepted by the state validator, is removed by the filter. *)
Lemma filter_messages_drops_important_dict :
  validate_message_entry legacy_system = true
  /\ dict_get "role" legacy_system_fields = Some (VStr "system")
  /\ (exists c, dict_get "content" legacy_system_fields = Some (VStr c)
                /\ contains "password" c = true)
  /\ In legacy_system (messages legacy_system_log)
  /\ ~ In legacy_system (messages (filter_messages legacy_system_log None None)).
Proof.
  split; [vm_compute; reflexivity|]. split; [reflexivity|].
  split; [eexists; split; [reflexivity | vm_compute; reflexivity]|].
  split; [vm_compute; tauto|].
  vm_compute. tauto.
Qed.

(** The loop steps over a dictionary: its content reads as the empty
    string, which is shorter than the minimum length. *)
Lemma filter_step_dict (acc : list message) (d : pydict) :
  normalized_content (MsgDict d) = ""
  /\ filter_step [] default_filter_config acc (MsgDict d) = acc.
Proof. split; reflexivity. Qed.

Lemma fold_filter_step_no_dict (msgs acc : list message) :
  forallb (fun m => negb (is_dict m)) acc = true ->
  forallb (fun m => negb (is_dict m))
    (fold_left (filter_step [] default_filter_config) msgs acc) = true.
Proof.
  revert acc. induction msgs as [|m msgs IH]; intros acc Hacc; [done|].
  cbn [fold_left]. apply IH. destruct m as [ty c kw | d].
  - destruct (filter_step_cases [] default_filter_config acc (MsgObj ty c kw))
      as [-> | ->]; [done|].
    rewrite forallb_app, Hacc. reflexivity.
  - by rewrite (proj2 (filter_step_dict acc d)).
Qed.

(** C10. With the default configuration the filter removes every message
    that is a plain dictionary, whatever its fields: also one of role
    "system", also one whose content names an important keyword. Role and
    content are read as attributes, a dictionary has neither, the content
    reads as the empty string and fails the minimum length of ten. *)
Theorem filter_messages_drops_every_dict (st : AgentState) (d : pydict) :
  type_in [] (MsgDict d) = false
  /\ is_system (MsgDict d) = false
  /\ normalized_content (MsgDict d) = ""
  /\ (Z.of_nat (String.length (normalized_content (MsgDict d)))
      <? min_message_length default_filter_config)%Z = true
  /\ ~ In (MsgDict d) (messages (filter_messages st None None))
  /\ forallb (fun m => negb (is_dict m))
       (messages (filter_messages st None None)) = true.
Proof.
  do 4 (split; [reflexivity|]).
  assert (H : forallb (fun m => negb (is_dict m))
                (messages (filter_messages st None None)) = true).
  { rewrite filter_messages_messages. apply fold_filter_step_no_dict. done. }
  split; [|done]. intros Hin. rewrite forallb_forall in H.
  specialize (H _ Hin). discriminate H.
Qed.

End Filter.

(** ** Pipeline engine *)

Section Pipeline.

Lemma requires_hitl_check_hitl_node (st : AgentState) :
  requires_hitl (check_hitl_node st) = requires_hitl st.
Proof. unfold check_hitl_node. by destruct (requires_hitl st) eqn:E. Qed.

(** The escalated run: four nodes, then [END]. *)
Lemma run_graph_escalated (limit : nat) (env : TurnEnv)
    (fs : gmap string FileContent) (st : AgentState) :
  requires_hitl (state_at_check env fs st) = true ->
  run_graph (4 + limit) env entry_point (fs, st)
  = Some {| trace := [fetch_history; process_query; generate_response; check_hitl];
            final_files := fs;
            final_state := check_hitl_node (state_at_check env fs st) |}.
Proof.
  intros H. unfold entry_point, state_at_check in *.
  cbn [run_graph run_node next_target fst snd Nat.add].
  unfold route_hitl. rewrite requires_hitl_check_hitl_node, H.
  reflexivity.
Qed.

(** The run that is not escalated: six nodes, then [END]. *)
Lemma run_graph_saved (limit : nat) (env : TurnEnv)
    (fs : gmap string FileContent) (st : AgentState) :
  requires_hitl (state_at_check env fs st) = false ->
  let saved := save_interaction_node env
                 (fs, check_hitl_node (state_at_check env fs st)) in
  run_graph (6 + limit) env entry_point (fs, st)
  = Some {| trace := [fetch_history; process_query; generate_response;
                      check_hitl; save_interaction; trim_state];
            final_files := saved.1;
            final_state := trim_state_node saved.2 |}.
Proof.
  intros H saved. unfold entry_point, state_at_check in *.
  cbn [run_graph run_node next_target fst snd Nat.add].
  unfold route_hitl. rewrite requires_hitl_check_hitl_node, H.
  reflexivity.
Qed.

(** C2. Every invocation ends, in exactly one of two ways, decided by
    the flag of the state that reaches [check_hitl]. When the flag is set
    the run is [fetch_history], [process_query], [generate_response],
    [check_hitl] and stops there, escalated: [save_interaction] and
    [trim_state] do not run and the history files are what they were.
    Otherwise the run goes on through [save_interaction] and [trim_state]
    and stops after it, done. Nothing runs after either end, whatever the
    step limit from six on. *)
Theorem pipeline_reaches_one_terminal (env : TurnEnv)
    (fs : gmap string FileContent) (st : AgentState) :
  exists r,
    invoke env fs st = Some r
    /\ (forall limit, (6 <= limit)%nat ->
                      run_graph limit env entry_point (fs, st) = Some r)
    /\ if requires_hitl (state_at_check env fs st) then
         terminal_of r = Some ESCALATED
         /\ trace r = [fetch_history; process_query; generate_response; check_hitl]
         /\ ~ In save_interaction (trace r) /\ ~ In trim_state (trace r)
         /\ final_files r = fs
         /\ user_history (final_state r) = user_history (fetch_history_node fs st)
       else
         terminal_of r = Some DONE
         /\ trace r = [fetch_history; process_query; generate_response;
                       check_hitl; save_interaction; trim_state]
         /\ (final_files r, final_state r)
            = (let saved := save_interaction_node env
                              (fs, check_hitl_node (state_at_check env fs st)) in
               (saved.1, trim_state_node saved.2)).
Proof.
  destruct (requires_hitl (state_at_check env fs st)) eqn:H.
  - eexists. split; [apply (run_graph_escalated 21 env fs st H)|].
    split.
    + intros limit Hl. replace limit with (4 + (limit - 4))%nat by lia.
      by apply run_graph_escalated.
    + cbn [trace final_files final_state]. split; [reflexivity|].
      split; [reflexivity|].
      split; [intros Hin; repeat (destruct Hin as [Hin|Hin]; [discriminate Hin|]); exact Hin|].
      split; [intros Hin; repeat (destruct Hin as [Hin|Hin]; [discriminate Hin|]); exact Hin|].
      split; [reflexivity|].
      unfold state_at_check, check_hitl_node, generate_response_node, process_query_node.
      repeat match goal with
             | |- context [if ?b then _ else _] => destruct b
             | |- context [match ?o with Some _ => _ | None => _ end] => destruct o
             end; reflexivity.
  - eexists. split; [apply (run_graph_saved 19 env fs st H)|].
    split.
    + intros limit Hl. replace limit with (6 + (limit - 6))%nat by lia.
      by apply run_graph_saved.
    + cbn [trace final_files final_state]. split; [reflexivity|].
      split; reflexivity.
Qed.

(** A refund request stops at [check_hitl] with the files untouched; a
    password question runs to [trim_state]. Six steps are enough for
    both. *)
Lemma pipeline_reaches_one_terminal_witness :
  run_graph 6 sample_env entry_point (∅, refund_turn)
  = invoke sample_env ∅ refund_turn
  /\ option_map trace (invoke sample_env ∅ refund_turn)
     = Some [fetch_history; process_query; generate_response; check_hitl]
  /\ option_map final_files (invoke sample_env ∅ refund_turn) = Some ∅
  /\ option_map trace (invoke sample_env ∅ password_turn)
     = Some [fetch_history; process_query; generate_response; check_hitl;
             save_interaction; trim_state].
Proof.
  destruct (pipeline_reaches_one_terminal sample_env ∅ refund_turn)
    as (r & Hr & Hlimit & _).
  split; [rewrite Hr; apply Hlimit; lia|].
  repeat split; vm_compute; reflexivity.
Defined.

End Pipeline.

(** ** History store *)

Section HistoryStore.

Lemma load_after_write (fs : gmap string FileContent) (uid : string)
    (data : StoredData) :
  load_long_term_memory (<[get_user_file_path uid := Parsed data]> fs) uid = data.
Proof. unfold load_long_term_memory. by rewrite lookup_insert_eq. Qed.

(** A user without a file has an empty history. *)
Lemma load_without_file (fs : gmap string FileContent) (uid : string) :
  fs !! get_user_file_path uid = None ->
  load_long_term_memory fs uid = no_data uid
  /\ stored_user_history (load_long_term_memory fs uid) = [].
Proof. intros H. unfold load_long_term_memory. by rewrite H. Qed.

(** What a call with well-typed arguments does. *)
Lemma append_to_history_typed (fs : gmap string FileContent) (w : WriteOutcome)
    (t_entry t_saved uid q r : string) (md : pyval) :
  Py.strip uid <> "" -> is_none_or_dict md = true ->
  append_to_history fs w t_entry t_saved (VStr uid) (VStr q) (VStr r) md
  = save_long_term_memory fs w t_saved uid
      (stored_user_history (load_long_term_memory fs uid)
       ++ [{| query := q; resolution := r; timestamp := t_entry;
              entry_metadata := metadata_or_empty md |}])
      (stored_metadata (load_long_term_memory fs uid)).
Proof.
  intros Hu Hmd. unfold append_to_history, validate_append.
  apply String.eqb_neq in Hu. rewrite Hu.
  by destruct md.
Qed.

(** A call that fails validation answers [False] and writes nothing. *)
Lemma append_to_history_rejects (fs : gmap string FileContent) (w : WriteOutcome)
    (t_entry t_saved : string) (uid q r md : pyval) :
  is_nonblank_str uid && is_str q && is_str r && is_none_or_dict md = false ->
  append_to_history fs w t_entry t_saved uid q r md = (false, fs).
Proof.
  unfold append_to_history, validate_append.
  destruct uid as [| | | |u| |]; try done. cbn [is_nonblank_str].
  destruct (String.eqb (Py.strip u) ""); [done|].
  destruct q; try done. destruct r; try done. by destruct md.
Qed.

(** C6. After an append that succeeds, loading the same user gives the
    history as it was with the new entry at its end: the query, the
    resolution, the time stamped and the metadata of the call (the empty
    dictionary for [None]). A user with no stored data loads as the empty
    history. *)
Theorem history_round_trip (fs fs' : gmap string FileContent) (w : WriteOutcome)
    (t_entry t_saved uid q r : string) (md : pyval) :
  append_to_history fs w t_entry t_saved (VStr uid) (VStr q) (VStr r) md
  = (true, fs') ->
  let entry := {| query := q; resolution := r; timestamp := t_entry;
                  entry_metadata := metadata_or_empty md |} in
  stored_user_history (load_long_term_memory fs' uid)
  = stored_user_history (load_long_term_memory fs uid) ++ [entry]
  /\ last (stored_user_history (load_long_term_memory fs' uid)) = Some entry
  /\ (forall (fs0 : gmap string FileContent) (uid0 : string),
        fs0 !! get_user_file_path uid0 = None ->
        stored_user_history (load_long_term_memory fs0 uid0) = []).
Proof.
  intros H entry.
  assert (Hv : is_nonblank_str (VStr uid) && is_str (VStr q) && is_str (VStr r)
               && is_none_or_dict md = true).
  { destruct (is_nonblank_str (VStr uid) && is_str (VStr q) && is_str (VStr r)
              && is_none_or_dict md) eqn:E; [done|].
    rewrite append_to_history_rejects in H by done. discriminate H. }
  rewrite !andb_true_iff in Hv. destruct Hv as [[[Hu _] _] Hmd].
  cbn [is_nonblank_str] in Hu. apply negb_true_iff, String.eqb_neq in Hu.
  rewrite append_to_history_typed in H by done.
  unfold save_long_term_memory in H. destruct w; try discriminate H.
  injection H as <-. rewrite load_after_write. cbn [stored_user_history].
  fold entry. split; [done|]. split; [apply last_snoc|].
  intros fs0 uid0 H0. by apply load_without_file.
Qed.

(** A first and a second entry of one user. *)
Lemma history_round_trip_witness :
  let fs1 := (append_to_history ∅ WriteOk "2024-01-01T10:00:00" "2024-01-01T10:00:01"
                (VStr "u1") (VStr "where is my invoice") (VStr "See Billing.")
                VNone).2 in
  let fs2 := (append_to_history fs1 WriteOk "2024-01-02T10:00:00" "2024-01-02T10:00:01"
                (VStr "u1") (VStr "how do i log in") (VStr "Use the login page.")
                (VDict [("category", VStr "authentication")])).2 in
  stored_user_history (load_long_term_memory fs2 "u1")
  = [{| query := "where is my invoice"; resolution := "See Billing.";
        timestamp := "2024-01-01T10:00:00"; entry_metadata := [] |};
     {| query := "how do i log in"; resolution := "Use the login page.";
        timestamp := "2024-01-02T10:00:00";
        entry_metadata := [("category", VStr "authentication")] |}]
  /\ stored_user_history (load_long_term_memory fs2 "u2") = [].
Proof.
  intros fs1 fs2.
  destruct (history_round_trip fs1 fs2 WriteOk "2024-01-02T10:00:00"
              "2024-01-02T10:00:01" "u1" "how do i log in" "Use the login page."
              (VDict [("category", VStr "authentication")])) as (H1 & _ & H3).
  - reflexivity.
  - split.
    + rewrite H1. vm_compute. reflexivity.
    + apply H3. vm_compute. reflexivity.
Defined.

(** C8, amended. [append_to_history] rejects a call, writing nothing, when
    the user identifier is not a string with a non-blank character, when
    the query or the resolution is not a string, or when the metadata is
    neither [None] nor a dictionary. Every other call whose write succeeds
    stores the entry with the query and the resolution as given, empty or
    not, and with the time read from the clock. *)
Theorem append_to_history_validation (fs : gmap string FileContent)
    (w : WriteOutcome) (t_entry t_saved : string) (uid q r md : pyval) :
  (is_nonblank_str uid && is_str q && is_str r && is_none_or_dict md = false ->
   append_to_history fs w t_entry t_saved uid q r md = (false, fs))
  /\ (is_nonblank_str uid && is_str q && is_str r && is_none_or_dict md = true ->
      exists u q' r',
        uid = VStr u /\ q = VStr q' /\ r = VStr r'
        /\ (w = WriteOk ->
            exists fs',
              append_to_history fs w t_entry t_saved uid q r md = (true, fs')
              /\ last (stored_user_history (load_long_term_memory fs' u))
                 = Some {| query := q'; resolution := r'; timestamp := t_entry;
                           entry_metadata := metadata_or_empty md |})).
Proof.
  split; [apply append_to_history_rejects|].
  rewrite !andb_true_iff. intros [[[Hu Hq] Hr] Hmd].
  destruct uid as [| | | |u| |]; try done.
  destruct q as [| | | |q'| |]; try done.
  destruct r as [| | | |r'| |]; try done.
  exists u, q', r'. do 3 (split; [done|]). intros ->.
  cbn [is_nonblank_str] in Hu. apply negb_true_iff, String.eqb_neq in Hu.
  rewrite append_to_history_typed by done.
  unfold save_long_term_memory. eexists. split; [reflexivity|].
  rewrite load_after_write. cbn [stored_user_history]. apply last_snoc.
Qed.

(** A number as query is rejected; a string query is stored. *)
Lemma append_to_history_validation_witness :
  append_to_history ∅ WriteOk "2024-01-01T10:00:00" "2024-01-01T10:00:01"
    (VStr "u1") (VInt 7) (VStr "ok") VNone = (false, ∅)
  /\ (append_to_history ∅ WriteOk "2024-01-01T10:00:00" "2024-01-01T10:00:01"
        (VStr "u1") (VStr "hello there") (VStr "ok") VNone).1 = true.
Proof.
  split.
  - apply (append_to_history_validation ∅ WriteOk "2024-01-01T10:00:00"
             "2024-01-01T10:00:01" (VStr "u1") (VInt 7) (VStr "ok") VNone).
    reflexivity.
  - destruct (append_to_history_validation ∅ WriteOk "2024-01-01T10:00:00"
                "2024-01-01T10:00:01" (VStr "u1") (VStr "hello there")
                (VStr "ok") VNone) as [_ H].
    destruct (H eq_refl) as (u & q' & r' & _ & _ & _ & Hw).
    destruct (Hw eq_refl) as (fs' & -> & _). reflexivity.
Defined.

(** An empty query and an empty resolution are strings: the call
    succeeds and the entry is stored with both empty. Nor does the
    construction of an entry in the state look at its fields. *)
Lemma append_to_history_accepts_empty :
  let out := append_to_history ∅ WriteOk "2024-01-01T10:00:00" "2024-01-01T10:00:01"
               (VStr "u1") (VStr "") (VStr "") VNone in
  out.1 = true
  /\ stored_user_history (load_long_term_memory out.2 "u1")
     = [{| query := ""; resolution := ""; timestamp := "2024-01-01T10:00:00";
           entry_metadata := [] |}]
  /\ user_history (add_user_history_entry "" sample_state "" "" [])
     = [{| query := ""; resolution := ""; timestamp := ""; entry_metadata := [] |}].
Proof. repeat split; vm_compute; reflexivity. Qed.

End HistoryStore.

(** ** Resolution of an escalation *)

Section Resolution.
Import CustomerSupportAgent.

(** C9, amended. [approve_hitl] looks at no record of pending
    escalations: for every user, thread, decision and feedback it answers
    with the status "approved" when the decision is to approve and
    "rejected" otherwise, with the session identifier and with the
    feedback, or a stock sentence, in the message. *)
Theorem approve_hitl_always_answers (uid tid : string) (approved : bool)
    (feedback : option string) :
  status (approve_hitl uid tid approved feedback)
  = (if approved then "approved" else "rejected")
  /\ hitl_session_id (approve_hitl uid tid approved feedback)
     = uid +:+ "_" +:+ tid
  /\ message_text (approve_hitl uid tid approved feedback)
     = (if approved
        then "Your issue has been reviewed and approved. "
             +:+ feedback_or feedback "Our team will contact you with the resolution."
        else "Your issue has been reviewed. "
             +:+ feedback_or feedback
                   "Our team will follow up with alternative solutions.").
Proof. by destruct approved. Qed.

(** With an empty queue, and with a queue whose only item of this user
    and thread is resolved already, nothing is pending; the answer is a
    plain "approved" or "rejected". *)
Lemma approve_hitl_without_pending :
  has_pending [] "u1" "t1" = false
  /\ has_pending [{| item_query := "refund please"; item_user_id := "u1";
                     item_thread_id := "t1";
                     item_timestamp := "2024-01-01T10:00:00";
                     item_status := "approved" |}] "u1" "t1" = false
  /\ status (approve_hitl "u1" "t1" true None) = "approved"
  /\ status (approve_hitl "u1" "t1" false (Some "no")) = "rejected"
  /\ message_text (approve_hitl "u1" "t1" true None)
     = "Your issue has been reviewed and approved. Our team will contact you with the resolution.".
Proof. repeat split; vm_compute; reflexivity. Qed.

End Resolution.

(** ** Whole turns *)

Section Turns.
Import CustomerSupportAgent.

(** A refund request is escalated and leaves no trace in the history
    files. *)
Lemma process_message_escalated :
  let out := process_message sample_env ∅ "u1" "t1" "I want a refund" in
  option_map (fun o => turn_requires_hitl o.1) out = Some true
  /\ option_map (fun o => turn_response o.1) out
     = Some QueryProcessor.escalation_response
  /\ option_map snd out = Some ∅.
Proof. repeat split; vm_compute; reflexivity. Qed.

(** A password question is answered and recorded. *)
Lemma process_message_answered :
  let out := process_message sample_env ∅ "u1" "t1" "how do i reset my password" in
  option_map (fun o => turn_requires_hitl o.1) out = Some false
  /\ option_map (fun o => turn_response o.1) out
     = Some QueryProcessor.answer_reset_password
  /\ option_map (fun o => stored_user_history (load_long_term_memory o.2 "u1")) out
     = Some [{| query := "how do i reset my password";
                resolution := QueryProcessor.answer_reset_password;
                timestamp := "2024-01-01T00:00:02";
                entry_metadata := [("category", VStr "authentication");
                                   ("thread_id", VStr "t1")] |}].
Proof. repeat split; vm_compute; reflexivity. Qed.

End Turns.

(** * Further properties of the code *)

(** ** Classification, beyond the escalation check *)

Section ClassifierMore.
Import Py QueryProcessor.

Lemma lower_char_idem (c : ascii) : lower_char (lower_char c) = lower_char c.
Proof. destruct c as [[] [] [] [] [] [] [] []]; vm_compute; reflexivity. Qed.

Lemma lower_idem (s : string) : lower (lower s) = lower s.
Proof.
  induction s as [|c s IH]; [done|]. cbn [lower]. by rewrite lower_char_idem, IH.
Qed.

Lemma lower_char_question (c : ascii) :
  Ascii.eqb "?" (lower_char c) = Ascii.eqb "?" c.
Proof. destruct c as [[] [] [] [] [] [] [] []]; vm_compute; reflexivity. Qed.

Lemma count_question_lower (s : string) :
  count_char "?" (lower s) = count_char "?" s.
Proof.
  induction s as [|c s IH]; [done|]. cbn [lower count_char].
  by rewrite lower_char_question, IH.
Qed.

Lemma lower_char_not_upper (c : ascii) : is_upper_char (lower_char c) = false.
Proof. destruct c as [[] [] [] [] [] [] [] []]; vm_compute; reflexivity. Qed.

Lemma has_upper_lower (s : string) : has_upper (lower s) = false.
Proof.
  induction s as [|c s IH]; [done|]. cbn [lower has_upper].
  by rewrite lower_char_not_upper, IH.
Qed.

Lemma requires_hitl_generate_response (q : string) (history : list UserHistoryEntry) :
  requires_hitl (generate_response q history) = is_complex_query q.
Proof.
  unfold generate_response. destruct (analyze_query q) as [cat conf].
  destruct (is_complex_query q); [done|].
  by destruct (_is_authentication_query q).
Qed.

(** X1. A reply asks for human review exactly when the query names an
    escalation term (in any letter case), has more than two question
    marks, or is upper-case and longer than twenty characters: nothing
    else escalates, whatever the history. *)
Theorem review_exactly_on_triggers (q : string) (history : list UserHistoryEntry) :
  requires_hitl (generate_response q history) = true
  <-> (exists t, In t complex_indicators /\ contains t (lower q) = true)
      \/ (2 < count_char "?" q)%nat
      \/ (isupper q = true /\ (20 < String.length q)%nat).
Proof.
  rewrite requires_hitl_generate_response. split.
  - apply is_complex_query_only_triggers.
  - intros H. apply is_complex_query_triggers.
    destruct H as [[t [Ht Hc]] | [H | H]]; eauto 6.
Qed.

(** X5. Keyword scoring, the authentication test and the canned-answer
    lookup do not see letter case: a query and its lower-case form score,
    classify and are answered alike. The escalation check does see it, in
    one direction only: lowering a query never makes it escalate. *)
Theorem classification_ignores_case (q : string) :
  analyze_query (lower q) = analyze_query q
  /\ _is_authentication_query (lower q) = _is_authentication_query q
  /\ get_response (lower q) = get_response q
  /\ (is_complex_query (lower q) = true -> is_complex_query q = true)
  /\ (is_complex_query q = false -> is_complex_query (lower q) = false).
Proof.
  assert (Hc : is_complex_query (lower q) = true -> is_complex_query q = true).
  { intros H. apply is_complex_query_only_triggers in H.
    apply is_complex_query_triggers.
    destruct H as [[t [Ht Hin]] | [H | [H _]]].
    - rewrite lower_idem in Hin. eauto 6.
    - rewrite count_question_lower in H. auto.
    - unfold isupper in H. rewrite has_upper_lower, andb_false_r in H. done. }
  unfold analyze_query, _is_authentication_query, get_response.
  rewrite !lower_idem. do 3 (split; [done|]). split; [done|].
  intros H. destruct (is_complex_query (lower q)) eqn:E; [|done].
  rewrite Hc in H; done.
Qed.

(** An upper-case complaint is escalated; its lower-case form is not. *)
Lemma classification_ignores_case_example :
  is_complex_query "WHY IS THE APP SO SLOW TODAY" = true
  /\ is_complex_query (lower "WHY IS THE APP SO SLOW TODAY") = false.
Proof. split; vm_compute; reflexivity. Qed.

(** The score of a knowledge-base entry for a query. *)
Lemma analyze_fold (ql : string) (l : list KBEntry) (k0 : string) (s0 : nat) :
  let score e := count_in (keywords e) ql in
  let r := fold_left (analyze_step ql) l (k0, s0) in
  (r = (k0, s0) /\ Forall (fun e => (score e <= s0)%nat) l)
  \/ (exists l1 e l2,
        l = l1 ++ e :: l2 /\ r = (kb_key e, score e) /\ (s0 < score e)%nat
        /\ Forall (fun e' => (score e' < score e)%nat) l1
        /\ Forall (fun e' => (score e' <= score e)%nat) l2).
Proof.
  intros score. revert k0 s0. induction l as [|e l IH]; intros k0 s0 r.
  - left. split; [done | constructor].
  - subst r. cbn [fold_left].
    assert (Hstep : analyze_step ql (k0, s0) e
                    = if (s0 <? score e)%nat then (kb_key e, score e) else (k0, s0))
      by reflexivity.
    rewrite Hstep. clear Hstep. destruct (s0 <? score e)%nat eqn:E.
    + apply Nat.ltb_lt in E.
      destruct (IH (kb_key e) (score e))
        as [[Hr Hall] | (l1 & e' & l2 & Hl & Hr & Hlt & H1 & H2)];
        cbn zeta in Hr; rewrite Hr.
      * right. exists [], e, l. repeat split; try done.
      * right. exists (e :: l1), e', l2. subst l. repeat split; try done; [lia|].
        constructor; [lia | done].
    + apply Nat.ltb_ge in E.
      destruct (IH k0 s0)
        as [[Hr Hall] | (l1 & e' & l2 & Hl & Hr & Hlt & H1 & H2)];
        cbn zeta in Hr; rewrite Hr.
      * left. split; [done|]. constructor; done.
      * right. exists (e :: l1), e', l2. subst l. repeat split; try done.
        constructor; [lia | done].
Qed.

Lemma third_le_one (n : nat) :
  (inject_Z (Z.of_nat n) / 3 <= 1)%Q <-> (n <= 3)%nat.
Proof.
  unfold Qle, Qdiv, Qmult, Qinv, inject_Z. cbn [Qnum Qden]. lia.
Qed.

Lemma third_eq_one : (inject_Z (Z.of_nat 3) / 3 == 1)%Q.
Proof. reflexivity. Qed.

(** X2. [analyze_query] answers "general" with confidence 0 exactly
    when no keyword of any category occurs in the lower-cased query.
    Otherwise it answers the key of the first knowledge-base entry whose
    keyword count is the highest (every earlier entry counts strictly
    less, no later entry counts more), with a confidence of a third of
    that count, capped at 1. *)
Theorem analyze_query_picks_first_best (q : string) :
  let score e := count_in (keywords e) (lower q) in
  (Forall (fun e => score e = 0%nat) knowledge_base
   /\ analyze_query q = ("general", 0%Q))
  \/ (exists l1 e l2,
        knowledge_base = l1 ++ e :: l2
        /\ fst (analyze_query q) = kb_key e
        /\ (0 < score e)%nat
        /\ Forall (fun e' => (score e' < score e)%nat) l1
        /\ Forall (fun e' => (score e' <= score e)%nat) l2
        /\ ((score e <= 3)%nat ->
            (snd (analyze_query q) == inject_Z (Z.of_nat (score e)) / 3)%Q)
        /\ ((3 <= score e)%nat -> (snd (analyze_query q) == 1)%Q)).
Proof.
  intros score. unfold analyze_query.
  destruct (analyze_fold (lower q) knowledge_base "general" 0)
    as [[-> Hall] | (l1 & e & l2 & Hkb & -> & Hlt & H1 & H2)].
  - left. split; [|done].
    eapply Forall_impl; [exact Hall|]. cbn. intros e He. fold (score e) in He. lia.
  - right. exists l1, e, l2. fold (score e) in *. cbn [fst snd].
    replace (0 <? score e)%nat with true by (symmetry; by apply Nat.ltb_lt).
    cbn [fst snd]. do 5 (split; [done|]).
    destruct (Qle_bool (Qred (inject_Z (Z.of_nat (score e)) / 3)) 1) eqn:E.
    + apply Qle_bool_iff in E. rewrite Qred_correct in E.
      apply third_le_one in E. split.
      * intros _. apply Qred_correct.
      * intros H3. rewrite Qred_correct.
        replace (score e) with 3%nat by lia. reflexivity.
    + apply not_true_iff_false in E. rewrite Qle_bool_iff, Qred_correct in E.
      rewrite third_le_one in E. split; [lia | reflexivity].
Qed.

Lemma confidence_above_threshold (n : nat) :
  (0 < n)%nat ->
  let c := Qred (inject_Z (Z.of_nat n) / 3) in
  Qle_bool (if Qle_bool c 1 then c else 1%Q) (3 # 10) = false.
Proof.
  intros Hn c. apply not_true_iff_false. rewrite Qle_bool_iff.
  destruct (Qle_bool c 1).
  - unfold c. rewrite Qred_correct.
    unfold Qle, Qdiv, Qmult, Qinv, inject_Z. cbn [Qnum Qden]. lia.
  - unfold Qle. cbn. lia.
Qed.

Lemma kb_lookup_general : kb_lookup "general" = None.
Proof. vm_compute. reflexivity. Qed.

Lemma kb_lookup_key (e : KBEntry) :
  In e knowledge_base -> kb_lookup (kb_key e) <> None.
Proof.
  intros Hin Hnone. unfold kb_lookup in Hnone.
  pose proof (List.find_none _ _ Hnone e Hin) as H. cbn in H.
  by rewrite String.eqb_refl in H.
Qed.

(** X3. A query that is neither escalated nor an authentication query
    gets the category of [analyze_query] and, as text, the template of
    that category when the category is an entry of the knowledge base and
    the clarification request when it is "general"; the confidence
    threshold of 0.3 never turns a knowledge-base category down, since one
    keyword already scores a third. The template is wrapped in the history
    note when one of the last three queries is related. *)
Theorem knowledge_base_answer (q : string) (history : list UserHistoryEntry) :
  is_complex_query q = false -> _is_authentication_query q = false ->
  let r := generate_response q history in
  let base := match kb_lookup (category r) with
              | Some e => kb_response e
              | None => clarification_response q
              end in
  requires_hitl r = false
  /\ category r = fst (analyze_query q)
  /\ (kb_lookup (category r) = None <-> category r = "general")
  /\ response r
     = (if existsb (_are_queries_related q) (map query (slice_from (-3) history))
        then with_history_note base else base).
Proof.
  intros Hc Ha r base.
  assert (Hr : r = {| response := _generate_personalized_response q
                                    (fst (analyze_query q)) (snd (analyze_query q))
                                    history;
                      requires_hitl := false; category := fst (analyze_query q);
                      confidence := snd (analyze_query q); source := None |}).
  { unfold r, generate_response. destruct (analyze_query q) as [cat conf].
    by rewrite Hc, Ha. }
  subst base. rewrite Hr. cbn [requires_hitl category response].
  split; [done|]. split; [done|].
  unfold _generate_personalized_response, analyze_query.
  destruct (analyze_fold (lower q) knowledge_base "general" 0)
    as [[-> Hall] | (l1 & e & l2 & Hkb & -> & Hlt & H1 & H2)]; cbn [fst snd].
  - cbn [Nat.ltb Nat.leb fst snd]. rewrite kb_lookup_general. done.
  - replace (0 <? count_in (keywords e) (lower q))%nat with true
      by (symmetry; by apply Nat.ltb_lt).
    cbn [fst snd].
    assert (Hin : In e knowledge_base) by (rewrite Hkb; apply in_elt).
    pose proof (kb_lookup_key e Hin) as Hk.
    destruct (kb_lookup (kb_key e)) as [e'|] eqn:El; [|done].
    rewrite (confidence_above_threshold _ Hlt). cbn [negb].
    split; [|done]. split; [done|]. intros Hg.
    rewrite Hg, kb_lookup_general in El. discriminate El.
Qed.

(** A question about cost scores one billing keyword and gets the billing
    template, with confidence one third. *)
Lemma knowledge_base_answer_witness :
  category (generate_response "what is the cost of the plan" []) = "billing"
  /\ response (generate_response "what is the cost of the plan" [])
     = kb_billing_response
  /\ (confidence (generate_response "what is the cost of the plan" []) == 1 # 3)%Q.
Proof.
  destruct (knowledge_base_answer "what is the cost of the plan" [])
    as (_ & H2 & _ & H4); [vm_compute; reflexivity | vm_compute; reflexivity |].
  split; [rewrite H2; vm_compute; reflexivity|].
  split; [rewrite H4; vm_compute; reflexivity | vm_compute; reflexivity].
Defined.

(** X4. Both similarity tests are symmetric in their two queries, and
    the relatedness of two queries does not depend on their letter
    case. *)
Theorem similarity_is_symmetric (a b : string) :
  _are_queries_related a b = _are_queries_related b a
  /\ _is_similar_query a b = _is_similar_query b a
  /\ _are_queries_related (lower a) b = _are_queries_related a b
  /\ _are_queries_related a (lower b) = _are_queries_related a b.
Proof.
  split; [|split].
  - unfold _are_queries_related.
    by rewrite (comm_L (∩) (set_of (findall_words (lower a)) ∖ common_words)).
  - unfold _is_similar_query.
    rewrite (comm_L (∩) (set_of (split a))).
    by rewrite (Nat.min_comm (size (set_of (split a)))).
  - unfold _are_queries_related. by rewrite !lower_idem.
Qed.

Lemma slice_from_app_tail {A : Type} (n : nat) (older recent : list A) :
  (n <= length recent)%nat -> (0 < n)%nat ->
  slice_from (- Z.of_nat n) (older ++ recent) = slice_from (- Z.of_nat n) recent.
Proof.
  intros Hn H0. rewrite !slice_from_neg by done. unfold lastn.
  rewrite length_app, drop_app_ge by lia. f_equal. lia.
Qed.

(** X6. The history note looks at the last three entries only: with
    three or more recent entries, whatever came before them does not
    change the answer. *)
Theorem only_last_three_entries_count (q cat : string) (conf : Q)
    (older recent : list UserHistoryEntry) :
  (3 <= length recent)%nat ->
  _generate_personalized_response q cat conf (older ++ recent)
  = _generate_personalized_response q cat conf recent.
Proof.
  intros H. unfold _generate_personalized_response.
  pose proof (slice_from_app_tail 3 older recent) as E.
  change (- Z.of_nat 3)%Z with (-3)%Z in E. by rewrite E by lia.
Qed.

(** Three recent queries about invoices: an old query about passwords
    before them changes nothing. *)
Lemma only_last_three_entries_count_witness :
  let entry q := {| query := q; resolution := "done";
                    timestamp := "2024-01-01T10:00:00"; entry_metadata := [] |} in
  let recent := [entry "invoice for march"; entry "invoice for april";
                 entry "invoice for may"] in
  _generate_personalized_response "reset password link" "password_reset" (2 # 3)
    ([entry "reset password link expired"] ++ recent)
  = _generate_personalized_response "reset password link" "password_reset" (2 # 3)
      recent
  /\ _generate_personalized_response "reset password link" "password_reset" (2 # 3)
       recent = kb_password_reset_response
  /\ _generate_personalized_response "reset password link" "password_reset" (2 # 3)
       [entry "reset password link expired"]
     = with_history_note kb_password_reset_response.
Proof.
  intros entry recent. split.
  - apply (only_last_three_entries_count "reset password link" "password_reset"
             (2 # 3) [entry "reset password link expired"] recent).
    cbn. lia.
  - split; vm_compute; reflexivity.
Defined.

End ClassifierMore.

(** ** Context manager, beyond the protected messages *)

Section ContextMore.
Import Py.

Lemma fold_filter_step_sublist (excl : list string) (cfg : FilterConfig)
    (msgs acc : list message) :
  fold_left (filter_step excl cfg) msgs acc `sublist_of` acc ++ msgs
  /\ exists kept, fold_left (filter_step excl cfg) msgs acc = acc ++ kept
                  /\ kept `sublist_of` msgs.
Proof.
  revert acc. induction msgs as [|m msgs IH]; intros acc.
  - cbn. rewrite app_nil_r. split; [done|]. exists []. by rewrite app_nil_r.
  - cbn [fold_left].
    destruct (IH (filter_step excl cfg acc m)) as [_ (kept & -> & Hk)].
    assert (exists kept', filter_step excl cfg acc m ++ kept = acc ++ kept'
                          /\ kept' `sublist_of` m :: msgs) as (kept' & -> & Hk').
    { destruct (filter_step_cases excl cfg acc m) as [-> | ->].
      - exists kept. split; [done|]. by apply sublist_cons.
      - exists (m :: kept). split; [by rewrite <- app_assoc|]. by apply sublist_skip. }
    split; [|eauto]. by apply sublist_app.
Qed.

Lemma filter_messages_counts (st : AgentState)
    (excl : option (list string)) (cfg : option FilterConfig) :
  metadata (filter_messages st excl cfg) !! "total_messages_before_filter"
  = Some (VInt (len (messages st)))
  /\ metadata (filter_messages st excl cfg) !! "messages_filtered"
     = Some (VInt (len (messages st) - len (messages (filter_messages st excl cfg)))).
Proof.
  unfold filter_messages, meta_set. cbn [metadata set_metadata set_messages messages].
  split.
  - rewrite lookup_insert_ne by done. by rewrite lookup_insert_eq.
  - do 2 (rewrite lookup_insert_ne by done). by rewrite lookup_insert_eq.
Qed.

(** X7. Whatever the configuration and the excluded roles, filtering
    keeps a sub-sequence of the log: no message is invented, repeated or
    moved. The metadata then holds the length of the log under
    [total_messages_before_filter] and the number of messages removed,
    which is never negative, under [messages_filtered]. *)
Theorem filter_messages_keeps_a_subsequence (st : AgentState)
    (excl : option (list string)) (cfg : option FilterConfig) :
  let st' := filter_messages st excl cfg in
  messages st' `sublist_of` messages st
  /\ (length (messages st') <= length (messages st))%nat
  /\ metadata st' !! "total_messages_before_filter"
     = Some (VInt (Z.of_nat (length (messages st))))
  /\ metadata st' !! "messages_filtered"
     = Some (VInt (Z.of_nat (length (messages st) - length (messages st'))))
  /\ user_history st' = user_history st
  /\ requires_hitl st' = requires_hitl st.
Proof.
  intros st'. assert (Hs : messages st' `sublist_of` messages st).
  { unfold st'. rewrite filter_messages_messages. unfold filtered_messages.
    apply (fold_filter_step_sublist _ _ (messages st) []). }
  pose proof (sublist_length _ _ Hs) as Hl.
  split; [done|]. split; [done|].
  destruct (filter_messages_counts st excl cfg) as [H1 H2]. fold st' in H1, H2.
  split; [done|]. split; [|done].
  rewrite H2. do 2 f_equal. unfold len. lia.
Qed.

Lemma fold_filter_step_snoc (excl : list string) (cfg : FilterConfig)
    (msgs acc : list message) (m : message) :
  fold_left (filter_step excl cfg) (msgs ++ [m]) acc
  = filter_step excl cfg (fold_left (filter_step excl cfg) msgs acc) m.
Proof. by rewrite fold_left_app. Qed.

(** A list that the loop leaves alone stays one when a message it
    accepts is added. *)
Lemma fold_filter_step_stable (excl : list string) (cfg : FilterConfig)
    (msgs acc : list message) :
  fold_left (filter_step excl cfg) acc [] = acc ->
  fold_left (filter_step excl cfg) (fold_left (filter_step excl cfg) msgs acc) []
  = fold_left (filter_step excl cfg) msgs acc.
Proof.
  revert acc. induction msgs as [|m msgs IH]; intros acc Hacc; [done|].
  cbn [fold_left]. apply IH.
  destruct (filter_step_cases excl cfg acc m) as [E | E]; rewrite E; [done|].
  rewrite fold_filter_step_snoc, Hacc. exact E.
Qed.

(** X8. Filtering is idempotent for every configuration and every list
    of excluded roles: a second pass over a filtered log removes nothing
    more. *)
Theorem filter_messages_idempotent (st : AgentState)
    (excl : option (list string)) (cfg : option FilterConfig) :
  messages (filter_messages (filter_messages st excl cfg) excl cfg)
  = messages (filter_messages st excl cfg)
  /\ metadata (filter_messages (filter_messages st excl cfg) excl cfg)
       !! "messages_filtered" = Some (VInt 0).
Proof.
  assert (H : messages (filter_messages (filter_messages st excl cfg) excl cfg)
              = messages (filter_messages st excl cfg)).
  { rewrite !filter_messages_messages. unfold filtered_messages.
    by apply fold_filter_step_stable. }
  split; [done|].
  destruct (filter_messages_counts (filter_messages st excl cfg) excl cfg)
    as [_ H2].
  rewrite H2, H. do 2 f_equal. lia.
Qed.

Lemma fold_filter_step_excluded (excl : list string) (cfg : FilterConfig)
    (msgs acc : list message) :
  forallb (fun m => negb (type_in excl m)) acc = true ->
  forallb (fun m => negb (type_in excl m))
    (fold_left (filter_step excl cfg) msgs acc) = true.
Proof.
  revert acc. induction msgs as [|m msgs IH]; intros acc Hacc; [done|].
  cbn [fold_left]. apply IH. unfold filter_step.
  destruct (type_in excl m) eqn:E; [done|].
  repeat match goal with
         | |- context [if ?b then _ else _] => destruct b
         end; try done; rewrite forallb_app, Hacc; cbn; by rewrite E.
Qed.

(** X9. The excluded roles come first: a message object whose type is
    among them never survives the filter, whatever the configuration,
    even a system message or one that names an important keyword. *)
Theorem filter_messages_exclusion_wins (st : AgentState) (excl : list string)
    (cfg : option FilterConfig) :
  forallb (fun m => negb (type_in excl m))
    (messages (filter_messages st (Some excl) cfg)) = true
  /\ forall ty c kw, mem ty excl = true ->
       ~ In (MsgObj ty c kw) (messages (filter_messages st (Some excl) cfg)).
Proof.
  assert (H : forallb (fun m => negb (type_in excl m))
                (messages (filter_messages st (Some excl) cfg)) = true).
  { rewrite filter_messages_messages. by apply fold_filter_step_excluded. }
  split; [done|]. intros ty c kw Hm Hin.
  rewrite forallb_forall in H. specialize (H _ Hin). cbn in H.
  rewrite Hm in H. discriminate H.
Qed.

(** A system message about passwords is protected by default and removed
    once the role "system" is excluded. *)
Lemma filter_messages_exclusion_example :
  let st := set_messages [sys "Never share a password."; human "what about my password"]
              sample_state in
  messages (filter_messages st None None)
  = [sys "Never share a password."; human "what about my password"]
  /\ messages (filter_messages st (Some ["system"]) None)
     = [human "what about my password"].
Proof. split; vm_compute; reflexivity. Qed.

Lemma filter_partition_perm (msgs : list message) :
  List.filter is_system msgs ++ List.filter (fun m => negb (is_system m)) msgs
  ≡ₚ msgs.
Proof.
  induction msgs as [|m msgs IH]; [done|]. cbn [List.filter].
  destruct (is_system m); cbn [negb].
  - cbn. by constructor.
  - rewrite <- Permutation_middle. by constructor.
Qed.

Lemma slice_from_sublist {A : Type} (z : Z) (l : list A) :
  slice_from z l `sublist_of` l.
Proof. destruct (slice_from_is_drop z l) as [n ->]. apply sublist_drop. Qed.

Lemma trim_messages_counts (st : AgentState) (max_messages : Z) (preserve : bool) :
  (max_messages < len (messages st))%Z ->
  metadata (trim_messages st max_messages preserve) !! "messages_trimmed"
  = Some (VInt (len (messages st)
                - len (messages (trim_messages st max_messages preserve))))
  /\ metadata (trim_messages st max_messages preserve)
       !! "total_messages_before_trim" = Some (VInt (len (messages st))).
Proof.
  intros H. unfold trim_messages.
  replace (len (messages st) <=? max_messages)%Z with false
    by (symmetry; by apply Z.leb_gt).
  unfold meta_set. cbn [metadata set_metadata set_messages messages]. split.
  - rewrite lookup_insert_ne by done. by rewrite lookup_insert_eq.
  - by rewrite lookup_insert_eq.
Qed.

(** X10. Whatever the limit and the mode, trimming keeps a part of the
    log: every message of the result is a message of the log, as often at
    most as it was there, so the log never grows; without
    [preserve_system] the order is kept as well. When the log is longer
    than the limit, the metadata records the number of messages removed,
    which is never negative, and the length before. *)
Theorem trim_messages_keeps_a_part (st : AgentState) (max_messages : Z)
    (preserve : bool) :
  let st' := trim_messages st max_messages preserve in
  messages st' ⊆+ messages st
  /\ (length (messages st') <= length (messages st))%nat
  /\ (preserve = false -> messages st' `sublist_of` messages st)
  /\ ((max_messages < len (messages st))%Z ->
      metadata st' !! "messages_trimmed"
      = Some (VInt (Z.of_nat (length (messages st) - length (messages st'))))
      /\ metadata st' !! "total_messages_before_trim"
         = Some (VInt (Z.of_nat (length (messages st)))))
  /\ user_history st' = user_history st.
Proof.
  intros st'.
  assert (Hsub : messages st' ⊆+ messages st
                 /\ (preserve = false -> messages st' `sublist_of` messages st)).
  { unfold st', trim_messages.
    destruct (len (messages st) <=? max_messages)%Z; [done|].
    cbn [meta_set set_metadata set_messages messages]. destruct preserve.
    - split; [|done].
      pose proof (slice_from_sublist
                    (- (max_messages - len (List.filter is_system (messages st))))
                    (List.filter (fun m => negb (is_system m)) (messages st))) as H.
      apply sublist_submseteq in H.
      pose proof (submseteq_app _ _ _ _
                    (reflexivity (List.filter is_system (messages st))) H) as H'.
      by rewrite (filter_partition_perm (messages st)) in H'.
    - pose proof (slice_from_sublist (- max_messages) (messages st)) as H.
      split; [by apply sublist_submseteq | done]. }
  destruct Hsub as [Hs Hp]. pose proof (submseteq_length _ _ Hs) as Hl.
  split; [done|]. split; [done|]. split; [done|]. split.
  - intros H. destruct (trim_messages_counts st max_messages preserve H) as [H1 H2].
    fold st' in H1, H2. rewrite H1, H2. split; [|done].
    do 2 f_equal. unfold len. lia.
  - unfold st', trim_messages. by destruct (len (messages st) <=? max_messages)%Z.
Qed.

Lemma trim_messages_bound (st : AgentState) (max_messages : nat) :
  (length (List.filter is_system (messages st)) < max_messages)%nat ->
  (length (messages (trim_messages st (Z.of_nat max_messages) true))
   <= max_messages)%nat.
Proof.
  intros Hsys.
  destruct (le_lt_dec (length (messages st)) max_messages) as [Hle | Hgt].
  - rewrite trim_messages_noop by (unfold len; lia). done.
  - destruct (trim_messages_with_room st max_messages Hgt Hsys) as (_ & H & _). lia.
Qed.

(** X11. With fewer system messages than the limit, trimming with
    [preserve_system] leaves at most [max_messages] messages, and trimming
    the result again changes nothing. *)
Theorem trim_messages_bounded_and_idempotent (st : AgentState) (max_messages : nat) :
  (length (List.filter is_system (messages st)) < max_messages)%nat ->
  let st' := trim_messages st (Z.of_nat max_messages) true in
  (length (messages st') <= max_messages)%nat
  /\ trim_messages st' (Z.of_nat max_messages) true = st'.
Proof.
  intros Hsys st'.
  pose proof (trim_messages_bound st max_messages Hsys) as Hl. fold st' in Hl.
  split; [done|]. apply trim_messages_noop. unfold len. lia.
Qed.

(** One system message and six human messages, trimmed to five and
    trimmed again. *)
Lemma trim_messages_bounded_and_idempotent_witness :
  length (messages (trim_messages one_system_six_human 5 true)) = 5%nat
  /\ trim_messages (trim_messages one_system_six_human 5 true) 5 true
     = trim_messages one_system_six_human 5 true.
Proof.
  destruct (trim_messages_bounded_and_idempotent one_system_six_human 5) as [_ H].
  - vm_compute. lia.
  - split; [vm_compute; reflexivity | exact H].
Defined.

(** X12. Without [preserve_system] and with a limit of at least one, a
    log longer than the limit is cut to its last [max_messages] messages,
    system messages or not; the result has [max_messages] messages and a
    second trim changes nothing. *)
Theorem trim_messages_plain_keeps_the_tail (st : AgentState) (max_messages : nat) :
  (0 < max_messages)%nat -> (max_messages < length (messages st))%nat ->
  let st' := trim_messages st (Z.of_nat max_messages) false in
  messages st' = lastn max_messages (messages st)
  /\ length (messages st') = max_messages
  /\ trim_messages st' (Z.of_nat max_messages) false = st'.
Proof.
  intros H0 Hlen st'.
  assert (Hm : messages st' = lastn max_messages (messages st)).
  { unfold st', trim_messages.
    replace (len (messages st) <=? Z.of_nat max_messages)%Z with false
      by (symmetry; apply Z.leb_gt; unfold len; lia).
    cbn [meta_set set_metadata set_messages messages]. by apply slice_from_neg. }
  assert (Hl : length (messages st') = max_messages).
  { rewrite Hm, length_lastn. lia. }
  split; [done|]. split; [done|]. apply trim_messages_noop. unfold len. lia.
Qed.

(** The system message that opens a log of seven is lost. *)
Lemma trim_messages_plain_keeps_the_tail_witness :
  messages (trim_messages one_system_six_human 5 false)
  = [human "h2"; human "h3"; human "h4"; human "h5"; human "h6"]
  /\ ~ In (sys "s1") (messages (trim_messages one_system_six_human 5 false)).
Proof.
  destruct (trim_messages_plain_keeps_the_tail one_system_six_human 5)
    as (H & _ & _); [lia | vm_compute; lia |].
  change (Z.of_nat 5) with 5%Z in H. rewrite H. split; [vm_compute; reflexivity|].
  vm_compute. intros Hin.
  repeat (destruct Hin as [Hin|Hin]; [discriminate Hin|]). exact Hin.
Defined.

Lemma filter_filter_implied {A : Type} (f g : A -> bool) (l : list A) :
  (forall x, f x = true -> g x = true) ->
  List.filter f (List.filter g l) = List.filter f l.
Proof.
  intros H. induction l as [|x l IH]; [done|]. cbn [List.filter].
  destruct (g x) eqn:Eg; cbn [List.filter].
  - destruct (f x); by rewrite IH.
  - destruct (f x) eqn:Ef; [|done]. rewrite (H x Ef) in Eg. discriminate Eg.
Qed.

(** X13. The closing stage of a turn, trim to five and filter with the
    defaults, keeps every system message object of the log, in number and
    order, leaves no dictionary message, and leaves at most five messages
    when the log has fewer than five system messages. *)
Theorem trim_state_node_result (st : AgentState) :
  List.filter is_system (messages (trim_state_node st))
  = List.filter is_system (messages st)
  /\ forallb (fun m => negb (is_dict m)) (messages (trim_state_node st)) = true
  /\ ((length (List.filter is_system (messages st)) < 5)%nat ->
      (length (messages (trim_state_node st)) <= 5)%nat).
Proof.
  unfold trim_state_node. split; [|split].
  - rewrite filter_messages_messages. cbn [default]. unfold filtered_messages.
    rewrite <- (trim_messages_system_part st 5).
    rewrite <- (filter_filter_implied is_system (protected default_filter_config)
                  (fold_left _ _ _)).
    + pose proof (fold_filter_step_protected default_filter_config
                    (messages (trim_messages st 5 true)) []) as H.
      cbn [List.filter app] in H. rewrite H.
      apply filter_filter_implied.
      intros x Hx. unfold protected. by rewrite Hx.
    + intros x Hx. unfold protected. by rewrite Hx.
  - rewrite filter_messages_messages. by apply fold_filter_step_no_dict.
  - intros Hsys.
    pose proof (trim_messages_bound st 5 Hsys) as Hl.
    change (Z.of_nat 5) with 5%Z in Hl.
    pose proof (proj1 (fold_filter_step_sublist [] default_filter_config
                         (messages (trim_messages st 5 true)) [])) as Hs.
    apply sublist_length in Hs. rewrite filter_messages_messages.
    cbn [default]. unfold filtered_messages. cbn [app] in Hs. lia.
Qed.

End ContextMore.

(** ** Entries, messages and formatting *)

Section EntriesMore.
Import Py.

(** X14. An entry written by [to_dict] is read back by [from_dict] as
    it was. Reading a dictionary raises [KeyError] exactly when the query,
    the resolution or the timestamp is missing; a missing metadata reads as
    the empty dictionary, and every other key is ignored. *)
Theorem history_entry_dict_round_trip (e : RawEntry) (data : pydict) :
  from_dict (to_dict e) = Returned e
  /\ (from_dict data = Raised "KeyError"
      <-> dict_has "query" data && dict_has "resolution" data
          && dict_has "timestamp" data = false)
  /\ (forall e', from_dict data = Returned e' ->
        dict_get "query" data = Some (raw_query e')
        /\ dict_get "resolution" data = Some (raw_resolution e')
        /\ dict_get "timestamp" data = Some (raw_timestamp e')
        /\ raw_metadata e' = default (VDict []) (dict_get "metadata" data)
        /\ from_dict (to_dict e') = Returned e').
Proof.
  split; [by destruct e|]. unfold from_dict, dict_has.
  destruct (dict_get "query" data) as [q|];
    destruct (dict_get "resolution" data) as [r|];
    destruct (dict_get "timestamp" data) as [t|]; cbn;
    (split; [split; (done || discriminate)|]); intros e' [= <-]; done.
Qed.

(** An entry of this program, and a dictionary without timestamp. *)
Lemma history_entry_dict_examples :
  let e := {| query := "how do i log in"; resolution := "Use the login page.";
              timestamp := "2024-01-01T10:00:00"; entry_metadata := [] |} in
  from_dict (to_dict (raw_of e)) = Returned (raw_of e)
  /\ from_dict [("query", VStr "q"); ("resolution", VStr "r")] = Raised "KeyError"
  /\ from_dict [("query", VInt 1); ("resolution", VNone); ("timestamp", VStr "")]
     = Returned {| raw_query := VInt 1; raw_resolution := VNone;
                   raw_timestamp := VStr ""; raw_metadata := VDict [] |}.
Proof. repeat split. Qed.

(** X15. [validate_message] accepts exactly the dictionary messages
    that the message check of [validate_state] accepts, and raises for
    every message object, also for those that [validate_state] takes. *)
Theorem validate_message_only_dicts (msg : message) :
  (validate_message msg = Returned true
   <-> is_dict msg = true /\ validate_message_entry msg = true)
  /\ (is_dict msg = false -> validate_message msg = Raised "ValueError")
  /\ (validate_message msg = Returned true \/ validate_message msg = Raised "ValueError").
Proof.
  destruct msg as [ty c kw | d]; [by intuition|].
  unfold validate_message, validate_message_entry. cbn [is_dict].
  destruct (dict_has "role" d), (dict_has "content" d); cbn [negb orb];
    try (by intuition).
  destruct (dict_get "role" d) as [[| | | |r| |]|]; try (by intuition).
  destruct (mem r ["user"; "assistant"; "system"]); by intuition.
Qed.

(** A human message object passes [validate_state] and fails
    [validate_message]. *)
Lemma validate_message_rejects_objects :
  validate_state (set_messages [human "hello"] sample_state) = true
  /\ validate_message (human "hello") = Raised "ValueError"
  /\ validate_message (MsgDict [("role", VStr "user"); ("content", VStr "hello")])
     = Returned true.
Proof. repeat split. Qed.

Lemma length_take_str (n : nat) (s : string) :
  String.length (take_str n s) = Nat.min n (String.length s).
Proof.
  revert s. induction n as [|n IH]; intros [|c s]; cbn; try done. by rewrite IH.
Qed.

Lemma string_length_app (a b : string) :
  String.length (a +:+ b) = (String.length a + String.length b)%nat.
Proof. induction a as [|c a IH]; [done|]. rewrite app_cons. cbn. by rewrite IH. Qed.

Lemma take_str_prefix (n : nat) (s : string) :
  exists rest, s = take_str n s +:+ rest.
Proof.
  revert s. induction n as [|n IH]; intros s.
  - by exists s.
  - destruct s as [|c s]; [by exists ""|].
    destruct (IH s) as [rest Hr]. exists rest. cbn [take_str].
    by rewrite app_cons, <- Hr.
Qed.

(** X16. [truncate_long_response] returns a response of at most
    [max_length] characters as it is. A longer one becomes its first
    [max_length] characters followed by the notice of 55 characters: the
    result is always longer than [max_length], and longer than the response
    itself when the response exceeds the limit by fewer than 55
    characters. *)
Theorem truncate_long_response_length (r : string) (max_length : nat) :
  ((String.length r <= max_length)%nat ->
   truncate_long_response r (Z.of_nat max_length) = r)
  /\ ((max_length < String.length r)%nat ->
      truncate_long_response r (Z.of_nat max_length)
      = take_str max_length r +:+ truncation_notice
      /\ String.length (truncate_long_response r (Z.of_nat max_length))
         = (max_length + 55)%nat
      /\ startswith (take_str max_length r) r = true
      /\ ((String.length r < max_length + 55)%nat ->
          (String.length r
           < String.length (truncate_long_response r (Z.of_nat max_length)))%nat)).
Proof.
  unfold truncate_long_response. split.
  - intros H.
    by replace (Z.of_nat (String.length r) <=? Z.of_nat max_length)%Z with true
      by (symmetry; apply Z.leb_le; lia).
  - intros H.
    replace (Z.of_nat (String.length r) <=? Z.of_nat max_length)%Z with false
      by (symmetry; apply Z.leb_gt; lia).
    unfold slice_to.
    replace (Z.of_nat max_length <? 0)%Z with false
      by (symmetry; apply Z.ltb_ge; lia).
    rewrite Nat2Z.id.
    assert (Hl : String.length (take_str max_length r +:+ truncation_notice)
                 = (max_length + 55)%nat).
    { rewrite string_length_app, length_take_str.
      change (String.length truncation_notice) with 55%nat. lia. }
    split; [done|]. split; [done|]. split.
    + apply startswith_spec. apply take_str_prefix.
    + rewrite Hl. lia.
Qed.

(** A response of 510 characters cut at 500 comes back with 555. *)
Lemma truncate_long_response_length_witness :
  let r := String.concat "" (repeat "0123456789" 51) in
  String.length r = 510%nat
  /\ String.length (truncate_long_response r 500) = 555%nat
  /\ truncate_long_response "short answer" 500 = "short answer".
Proof.
  intros r.
  destruct (truncate_long_response_length r 500) as [_ H].
  destruct H as (_ & H & _); [vm_compute; lia|].
  split; [vm_compute; reflexivity|]. split; [exact H|].
  apply (proj1 (truncate_long_response_length "short answer" 500)).
  vm_compute. lia.
Defined.

End EntriesMore.

(** ** History files, beyond one append *)

Section StoreMore.







(** X18. Clearing a user answers [False] only when the user has a file
    that the file system will not remove, and then changes nothing. When
    it answers [True] the user loads as one without data, with an empty
    history, and clearing again answers [True] and changes nothing. *)
Theorem clear_user_history_empties (fs : gmap string FileContent)
    (unlink_ok again_ok : bool) (uid : string) :
  let out := clear_user_history fs unlink_ok uid in
  (out.1 = false
   <-> unlink_ok = false /\ fs !! get_user_file_path uid <> None)
  /\ (out.1 = false -> out.2 = fs)
  /\ (out.1 = true ->
      load_long_term_memory out.2 uid = no_data uid
      /\ stored_user_history (load_long_term_memory out.2 uid) = []
      /\ clear_user_history out.2 again_ok uid = (true, out.2)).
Proof.
  unfold clear_user_history.
  destruct (fs !! get_user_file_path uid) as [c|] eqn:E.
  - destruct unlink_ok; cbn [fst snd].
    + split; [split; [done | by intros [? _]]|]. split; [done|]. intros _.
      unfold load_long_term_memory. rewrite !lookup_delete_eq. done.
    + split; [split; [done | done]|]. split; done.
  - cbn [fst snd]. split; [split; [done | by intros [_ H]]|]. split; [done|].
    intros _. unfold load_long_term_memory. rewrite E. done.
Qed.

(** X19. [get_recent_history] with a limit of at least one returns the
    last [limit] entries, all of them when there are no more. With the
    limit zero it returns the whole history, and with a negative limit the
    history without its first [-limit] entries. *)
Theorem get_recent_history_window (fs : gmap string FileContent) (uid : string)
    (limit : Z) :
  let history := stored_user_history (load_long_term_memory fs uid) in
  ((0 < limit)%Z ->
   get_recent_history fs uid limit = lastn (Z.to_nat limit) history
   /\ length (get_recent_history fs uid limit)
      = Nat.min (Z.to_nat limit) (length history))
  /\ (limit = 0%Z -> get_recent_history fs uid limit = history)
  /\ ((limit < 0)%Z ->
      get_recent_history fs uid limit = drop (Z.to_nat (- limit)) history).
Proof.
  intros history. unfold get_recent_history. fold history. split; [|split].
  - intros H.
    assert (E : (if (limit <? len history)%Z then slice_from (- limit) history
                 else history) = lastn (Z.to_nat limit) history).
    { destruct (limit <? len history)%Z eqn:El.
      - replace limit with (Z.of_nat (Z.to_nat limit)) at 1 by lia.
        apply slice_from_neg. lia.
      - apply Z.ltb_ge in El. unfold lastn, len in *.
        replace (length history - Z.to_nat limit)%nat with 0%nat by lia. done. }
    rewrite E. split; [done|]. apply length_lastn.
  - intros ->. destruct (0 <? len history)%Z; done.
  - intros H.
    replace (limit <? len history)%Z with true
      by (symmetry; apply Z.ltb_lt; unfold len; lia).
    unfold slice_from.
    replace (- limit <? 0)%Z with false by (symmetry; apply Z.ltb_ge; lia). done.
Qed.

(** Three entries, asked for with the limits 2, 0 and -1. *)
Lemma get_recent_history_window_examples :
  let entry q := {| query := q; resolution := "done";
                    timestamp := "2024-01-01T10:00:00"; entry_metadata := [] |} in
  let fs := append_all ∅ "2024-01-01T10:00:01" "u1"
              [entry "one"; entry "two"; entry "three"] in
  map query (get_recent_history fs "u1" 2) = ["two"; "three"]
  /\ map query (get_recent_history fs "u1" 0) = ["one"; "two"; "three"]
  /\ map query (get_recent_history fs "u1" (-1)) = ["two"; "three"]
  /\ map query (get_recent_history fs "u1" 10) = ["one"; "two"; "three"].
Proof. repeat split; vm_compute; reflexivity. Qed.

(** X20. The history is an append-only log: calls that succeed one
    after the other for a user leave the earlier history followed by the
    new entries in the order of the calls, and keep the metadata of the
    file. *)
Theorem appends_accumulate_in_order (fs : gmap string FileContent)
    (t_saved uid : string) (entries : list UserHistoryEntry) :
  Py.strip uid <> "" ->
  stored_user_history (load_long_term_memory (append_all fs t_saved uid entries) uid)
  = stored_user_history (load_long_term_memory fs uid) ++ entries
  /\ stored_metadata (load_long_term_memory (append_all fs t_saved uid entries) uid)
     = stored_metadata (load_long_term_memory fs uid).
Proof.
  intros Hu. revert fs. induction entries as [|e entries IH]; intros fs.
  - cbn. by rewrite app_nil_r.
  - unfold append_all. cbn [fold_left]. fold (append_all
      (append_to_history fs WriteOk (timestamp e) t_saved (VStr uid)
         (VStr (query e)) (VStr (resolution e)) (VDict (entry_metadata e))).2
      t_saved uid entries).
    destruct (IH (append_to_history fs WriteOk (timestamp e) t_saved (VStr uid)
         (VStr (query e)) (VStr (resolution e)) (VDict (entry_metadata e))).2)
      as [-> ->].
    rewrite append_to_history_typed by done.
    unfold save_long_term_memory. cbn [snd]. rewrite load_after_write.
    cbn [stored_user_history stored_metadata metadata_or_empty].
    rewrite <- app_assoc. by destruct e.
Qed.

(** Two entries onto one. *)
Lemma appends_accumulate_in_order_witness :
  let entry q := {| query := q; resolution := "done";
                    timestamp := "2024-01-01T10:00:00"; entry_metadata := [] |} in
  let fs := append_all ∅ "2024-01-01T10:00:01" "u1" [entry "one"] in
  map query (stored_user_history
               (load_long_term_memory
                  (append_all fs "2024-01-01T10:00:02" "u1" [entry "two"; entry "three"])
                  "u1"))
  = ["one"; "two"; "three"].
Proof.
  intros entry fs.
  destruct (appends_accumulate_in_order fs "2024-01-01T10:00:02" "u1"
              [entry "two"; entry "three"]) as [-> _]; [discriminate|].
  vm_compute. reflexivity.
Defined.

End StoreMore.

(** ** The external memory store *)

Section ExternalStore.
Import ExternalMemoryStore.

Lemma dict_get_None (k : string) (d : pydict) :
  dict_get k d = None <-> ~ In k (map fst d).
Proof.
  induction d as [|[k' v'] d IH]; [by intuition|]. cbn [dict_get map fst In].
  destruct (String.eqb k k') eqn:E.
  - apply String.eqb_eq in E. subst. split; [done | intros H; exfalso; auto].
  - apply String.eqb_neq in E. rewrite IH. intuition.
Qed.

Lemma dict_get_set (k k' : string) (v : pyval) (d : pydict) :
  dict_get k' (dict_set k v d) = if String.eqb k' k then Some v else dict_get k' d.
Proof.
  induction d as [|[k0 v0] d IH]; cbn [dict_set dict_get].
  - done.
  - destruct (String.eqb k k0) eqn:E; cbn [dict_get].
    + apply String.eqb_eq in E. subst k0.
      by destruct (String.eqb k' k).
    + rewrite IH. destruct (String.eqb k' k0) eqn:E0; [|done].
      apply String.eqb_eq in E0. subst k0.
      rewrite String.eqb_sym in E. by rewrite E.
Qed.

Lemma dict_set_keys (k : string) (v : pyval) (d : pydict) :
  map fst (dict_set k v d)
  = if dict_has k d then map fst d else map fst d ++ [k].
Proof.
  unfold dict_has. induction d as [|[k0 v0] d IH]; [done|].
  cbn [dict_set dict_get]. destruct (String.eqb k k0); [done|].
  cbn [map fst]. rewrite IH. by destruct (dict_get k d).
Qed.

Lemma dict_del_keys_subset (k x : string) (d : pydict) :
  In x (map fst (dict_del k d)) -> In x (map fst d).
Proof.
  induction d as [|[k0 v0] d IH]; [done|]. cbn [dict_del].
  destruct (String.eqb k k0); cbn [map fst In]; intuition.
Qed.

Lemma dict_del_NoDup (k : string) (d : pydict) :
  NoDup (map fst d) -> NoDup (map fst (dict_del k d)).
Proof.
  induction d as [|[k0 v0] d IH]; [done|]. cbn [dict_del map fst].
  rewrite NoDup_cons, list_elem_of_In. intros [Hn Hd].
  destruct (String.eqb k k0); [done|]. cbn [map fst].
  apply NoDup_cons. rewrite list_elem_of_In. split; [|auto].
  intros H. apply Hn. by apply dict_del_keys_subset in H.
Qed.

Lemma dict_get_del (k k' : string) (d : pydict) :
  NoDup (map fst d) ->
  dict_get k' (dict_del k d) = if String.eqb k' k then None else dict_get k' d.
Proof.
  induction d as [|[k0 v0] d IH]; cbn [dict_del dict_get map fst].
  - by destruct (String.eqb k' k).
  - rewrite NoDup_cons, list_elem_of_In. intros [Hn Hd].
    destruct (String.eqb k k0) eqn:E.
    + apply String.eqb_eq in E. subst k0.
      destruct (String.eqb k' k) eqn:E'; [|done].
      apply String.eqb_eq in E'. subst k'. by apply dict_get_None.
    + cbn [dict_get]. rewrite IH by done.
      destruct (String.eqb k' k0) eqn:E0; [|done].
      apply String.eqb_eq in E0. subst k0.
      rewrite String.eqb_sym in E. by rewrite E.
Qed.

(** X21. The external store behaves as a dictionary. A saved value is
    what a load of its key returns, and a save or a delete of one key
    changes the load of no other key. [delete] answers whether the key was
    there, and afterwards the key loads as [None]. The keys stay distinct,
    and [list_keys] gives the keys that start with the prefix, all of them
    for the empty prefix. *)
Theorem external_store_is_a_dictionary (store : pydict) (k k' prefix : string)
    (v : pyval) :
  NoDup (map fst store) ->
  let saved := (save store k v).2 in
  let removed := (delete store k).2 in
  (save store k v).1 = true
  /\ load saved k = Some v
  /\ (k' <> k -> load saved k' = load store k')
  /\ NoDup (map fst saved)
  /\ ((delete store k).1 = true <-> load store k <> None)
  /\ load removed k = None
  /\ (k' <> k -> load removed k' = load store k')
  /\ NoDup (map fst removed)
  /\ (In k' (list_keys store prefix)
      <-> load store k' <> None
          /\ (prefix = "" \/ Py.startswith prefix k' = true))
  /\ In k (list_keys saved "").
Proof.
  intros Hnd saved removed. unfold saved, removed, save, load, delete.
  cbn [fst snd]. split; [done|].
  split; [by rewrite dict_get_set, String.eqb_refl|].
  split; [intros H; rewrite dict_get_set;
          by apply String.eqb_neq in H as ->|].
  split.
  { rewrite dict_set_keys. destruct (dict_has k store) eqn:E; [done|].
    apply NoDup_app. split; [done|]. split; [|apply NoDup_singleton].
    intros x Hx [<-|[]]%list_elem_of_In. unfold dict_has in E.
    destruct (dict_get k store) eqn:G; [done|].
    apply dict_get_None in G. apply G. by apply list_elem_of_In. }
  assert (Hdel : forall x, dict_get x (if dict_has k store then (true, dict_del k store)
                                        else (false, store)).2
                           = if String.eqb x k then None else dict_get x store).
  { intros x. unfold dict_has. destruct (dict_get k store) eqn:G; cbn [snd].
    - by apply dict_get_del.
    - destruct (String.eqb x k) eqn:E; [|done].
      apply String.eqb_eq in E. by subst. }
  split.
  { unfold dict_has. destruct (dict_get k store); cbn [fst]; by intuition. }
  split; [by rewrite Hdel, String.eqb_refl|].
  split; [intros H; rewrite Hdel; by apply String.eqb_neq in H as ->|].
  split.
  { destruct (dict_has k store); cbn [snd]; [by apply dict_del_NoDup | done]. }
  split.
  { unfold list_keys.
    assert (Hk : In k' (map fst store) <-> dict_get k' store <> None).
    { rewrite dict_get_None. destruct (in_dec string_dec k' (map fst store)); intuition. }
    destruct (String.eqb prefix "") eqn:E; cbn [negb].
    - apply String.eqb_eq in E. rewrite Hk. intuition.
    - apply String.eqb_neq in E. rewrite filter_In, Hk. intuition. }
  unfold list_keys. cbn. rewrite dict_set_keys.
  destruct (dict_has k store) eqn:E.
  - unfold dict_has in E. destruct (dict_get k store) eqn:G; [|done].
    destruct (in_dec string_dec k (map fst store)) as [|Hn]; [done|].
    apply dict_get_None in Hn. congruence.
  - apply in_or_app. right. by left.
Qed.

(** Two saves, an overwrite and a delete, from the empty store. *)
Lemma external_store_is_a_dictionary_witness :
  let s1 := (save [] "user_1" (VStr "a")).2 in
  let s2 := (save s1 "session_9" (VStr "b")).2 in
  let s3 := (save s2 "user_1" (VStr "c")).2 in
  load s3 "user_1" = Some (VStr "c")
  /\ load s3 "session_9" = Some (VStr "b")
  /\ list_keys s3 "" = ["user_1"; "session_9"]
  /\ list_keys s3 "user_" = ["user_1"]
  /\ delete s3 "user_2" = (false, s3)
  /\ load (delete s3 "user_1").2 "user_1" = None.
Proof.
  intros s1 s2 s3.
  destruct (external_store_is_a_dictionary s2 "user_1" "session_9" "" (VStr "c"))
    as (_ & H1 & H2 & _).
  - cbn. apply NoDup_cons. split; [|apply NoDup_singleton].
    intros H%list_elem_of_In. cbn in H. intuition discriminate.
  - split; [exact H1|]. split; [unfold s3; rewrite H2 by discriminate; reflexivity|].
    repeat split.
Defined.

End ExternalStore.

(** ** Whole turns, for every message *)

Section AnswersMore.
Import Py QueryProcessor.

Lemma contains_app_l (t a b : string) :
  contains t a = true -> contains t (a +:+ b) = true.
Proof.
  rewrite !contains_spec. intros (x & y & ->). exists x, (y +:+ b).
  by rewrite !string_app_assoc.
Qed.

Lemma contains_app_r (t a b : string) :
  contains t b = true -> contains t (a +:+ b) = true.
Proof.
  rewrite !contains_spec. intros (x & y & ->). exists (a +:+ x), y.
  by rewrite !string_app_assoc.
Qed.

Lemma any_in_app_l (ks : list string) (a b : string) :
  any_in ks a = true -> any_in ks (a +:+ b) = true.
Proof.
  unfold any_in. rewrite !existsb_exists. intros (k & Hk & Hc).
  exists k. split; [done|]. by apply contains_app_l.
Qed.

Lemma any_in_app_r (ks : list string) (a b : string) :
  any_in ks b = true -> any_in ks (a +:+ b) = true.
Proof.
  unfold any_in. rewrite !existsb_exists. intros (k & Hk & Hc).
  exists k. split; [done|]. by apply contains_app_r.
Qed.

Lemma get_response_cases (q : string) :
  In (get_response q) (default_auth_response :: map snd mock_responses).
Proof.
  unfold get_response.
  destruct (lookup_response _ mock_responses) as [v|] eqn:E.
  - right. apply lookup_response_In in E. by apply (in_map snd) in E.
  - destruct (first_similar _ mock_responses) as [v|] eqn:F; [|by left].
    right. apply first_similar_Some in F as (k & Hin & _).
    by apply (in_map snd) in Hin.
Qed.

Lemma canned_answers_name_keyword :
  forallb (any_in important_keywords)
    (default_auth_response :: map snd mock_responses) = true.
Proof. vm_compute. reflexivity. Qed.

Lemma templates_name_keyword :
  forallb (fun e => any_in important_keywords (kb_response e)) knowledge_base = true.
Proof. vm_compute. reflexivity. Qed.

Lemma clarification_names_keyword (q : string) :
  any_in important_keywords (clarification_response q) = true.
Proof.
  unfold clarification_response. do 4 apply any_in_app_r.
  vm_compute. reflexivity.
Qed.

(** Every answer that is not the escalation notice names an important
    keyword. *)
Lemma answer_names_keyword (q : string) (history : list UserHistoryEntry) :
  is_complex_query q = false ->
  any_in important_keywords (response (generate_response q history)) = true.
Proof.
  intros Hc. unfold generate_response. destruct (analyze_query q) as [cat conf].
  rewrite Hc. destruct (_is_authentication_query q); cbn [response].
  - pose proof canned_answers_name_keyword as H. rewrite forallb_forall in H.
    apply H, get_response_cases.
  - unfold _generate_personalized_response.
    assert (Hb : any_in important_keywords
                   match kb_lookup cat with
                   | Some e => if negb (Qle_bool conf (3 # 10)) then kb_response e
                               else clarification_response q
                   | None => clarification_response q
                   end = true).
    { destruct (kb_lookup cat) as [e|] eqn:E; [|apply clarification_names_keyword].
      destruct (negb (Qle_bool conf (3 # 10))); [|apply clarification_names_keyword].
      pose proof templates_name_keyword as H. rewrite forallb_forall in H.
      apply H. unfold kb_lookup in E. by apply List.find_some in E as [E _]. }
    destruct (existsb _ _); [|done].
    unfold with_history_note. by apply any_in_app_r, any_in_app_l.
Qed.

Lemma answer_is_protected (env : TurnEnv) (q : string)
    (history : list UserHistoryEntry) :
  is_complex_query q = false ->
  protected default_filter_config
    (response_message env (generate_response q history)) = true.
Proof.
  intros Hc. apply answer_names_keyword with (history := history) in Hc.
  unfold any_in in Hc. apply existsb_exists in Hc as (k & Hk & Hin).
  apply protected_object. right. eauto.
Qed.

Lemma escalation_result_of (q : string) (history : list UserHistoryEntry) :
  is_complex_query q = true ->
  response (generate_response q history) = escalation_response
  /\ generate_response q history = escalation_result.
Proof.
  intros H. unfold generate_response. destruct (analyze_query q) as [cat conf].
  by rewrite H.
Qed.

End AnswersMore.

Section TurnsMore.
Import Py CustomerSupportAgent.

Lemma fetch_history_node_fields (fs : gmap string FileContent) (st : AgentState) :
  messages (fetch_history_node fs st) = messages st
  /\ requires_hitl (fetch_history_node fs st) = requires_hitl st
  /\ user_id (fetch_history_node fs st) = user_id st
  /\ thread_id (fetch_history_node fs st) = thread_id st
  /\ current_query (fetch_history_node fs st) = current_query st
  /\ user_history (fetch_history_node fs st)
     = if String.eqb (user_id st) "" then user_history st
       else stored_user_history (load_long_term_memory fs (user_id st)).
Proof.
  unfold fetch_history_node. destruct (String.eqb (user_id st) ""); [done|].
  repeat split. unfold current_query, meta_set. cbn [metadata set_metadata].
  by rewrite !lookup_insert_ne by done.
Qed.

(** The state that reaches [check_hitl] in a turn with a message. *)
Lemma state_at_check_of_turn (env : TurnEnv) (fs : gmap string FileContent)
    (uid tid msg : string) :
  msg <> "" ->
  let result := QueryProcessor.generate_response msg (loaded_history fs uid) in
  let st := state_at_check env fs (turn_start env uid tid msg) in
  messages st = [MsgObj "human" msg []; response_message env result]
  /\ requires_hitl st = QueryProcessor.requires_hitl result
  /\ user_id st = uid /\ thread_id st = tid
  /\ current_query st = msg
  /\ response_category st = VStr (QueryProcessor.category result)
  /\ user_history st = loaded_history fs uid.
Proof.
  intros Hmsg result st.
  destruct (fetch_history_node_fields fs (turn_start env uid tid msg))
    as (Hm & Hr & Hu & Ht & Hq & Hh).
  set (st1 := fetch_history_node fs (turn_start env uid tid msg)) in *.
  assert (H2 : process_query_node st1
               = meta_set "current_query" (VStr msg) st1).
  { unfold process_query_node. rewrite Hm. reflexivity. }
  assert (Hq2 : current_query (meta_set "current_query" (VStr msg) st1) = msg).
  { unfold current_query, meta_set. cbn [metadata set_metadata].
    by rewrite lookup_insert_eq. }
  assert (Hh1 : user_history st1 = loaded_history fs uid).
  { rewrite Hh. reflexivity. }
  unfold st, state_at_check. fold st1. rewrite H2.
  unfold generate_response_node. rewrite Hq2.
  apply String.eqb_neq in Hmsg. rewrite Hmsg.
  cbn [meta_set set_metadata set_requires_hitl set_messages messages requires_hitl
       user_id thread_id user_history metadata].
  rewrite Hm, Hh1. fold result. unfold response_message.
  split; [reflexivity|]. split; [reflexivity|].
  split; [exact Hu|]. split; [exact Ht|].
  unfold current_query, response_category, meta_set.
  cbn [metadata set_metadata set_requires_hitl set_messages].
  rewrite lookup_insert_ne by done. rewrite !lookup_insert_eq. done.
Qed.

Lemma invoke_escalated (env : TurnEnv) (fs : gmap string FileContent)
    (st : AgentState) :
  requires_hitl (state_at_check env fs st) = true ->
  invoke env fs st
  = Some {| trace := [fetch_history; process_query; generate_response; check_hitl];
            final_files := fs;
            final_state := check_hitl_node (state_at_check env fs st) |}.
Proof. intros H. exact (run_graph_escalated 21 env fs st H). Qed.

Lemma invoke_saved (env : TurnEnv) (fs : gmap string FileContent)
    (st : AgentState) :
  requires_hitl (state_at_check env fs st) = false ->
  invoke env fs st
  = Some {| trace := [fetch_history; process_query; generate_response;
                      check_hitl; save_interaction; trim_state];
            final_files :=
              (save_interaction_node env
                 (fs, check_hitl_node (state_at_check env fs st))).1;
            final_state :=
              trim_state_node
                (save_interaction_node env
                   (fs, check_hitl_node (state_at_check env fs st))).2 |}.
Proof. intros H. exact (run_graph_saved 19 env fs st H). Qed.

Lemma check_hitl_node_fields (st : AgentState) :
  messages (check_hitl_node st) = messages st
  /\ (requires_hitl st = false -> check_hitl_node st = st).
Proof. unfold check_hitl_node. by destruct (requires_hitl st). Qed.

Lemma save_interaction_node_fields (env : TurnEnv) (fs : gmap string FileContent)
    (st : AgentState) :
  messages (save_interaction_node env (fs, st)).2 = messages st
  /\ requires_hitl (save_interaction_node env (fs, st)).2 = requires_hitl st.
Proof.
  unfold save_interaction_node.
  destruct (String.eqb (user_id st) "" || String.eqb (current_query st) "");
    [done|].
  by destruct (append_to_history _ _ _ _ _ _ _ _).
Qed.

Lemma trim_state_node_fields (st : AgentState) :
  requires_hitl (trim_state_node st) = requires_hitl st
  /\ ((length (messages st) <= 5)%nat ->
      messages (trim_state_node st)
      = filtered_messages [] default_filter_config (messages st)).
Proof.
  split.
  - unfold trim_state_node, filter_messages, trim_messages.
    by destruct (len (messages st) <=? 5)%Z.
  - intros H. unfold trim_state_node.
    rewrite filter_messages_messages, trim_messages_noop by (unfold len; lia).
    done.
Qed.

(** After the filter the answer is the last message of the log. *)
Lemma answer_survives_filter (human_msg answer : message) :
  protected default_filter_config answer = true ->
  exists kept,
    filtered_messages [] default_filter_config [human_msg; answer]
    = kept ++ [answer].
Proof.
  intros Hp. unfold filtered_messages. cbn [fold_left].
  rewrite filter_step_protected by (done || apply type_in_nil). eauto.
Qed.

Lemma find_ai_last (kept : list message) (c : string) (kw : pydict) :
  List.find (has_type "ai") (rev (kept ++ [MsgObj "ai" c kw]))
  = Some (MsgObj "ai" c kw).
Proof. by rewrite rev_app_distr. Qed.

(** The answered turn, with the files it leaves. *)
Lemma answered_turn_final_files (env : TurnEnv) (fs : gmap string FileContent)
    (uid tid msg : string) :
  msg <> "" -> QueryProcessor.is_complex_query msg = false ->
  exists res,
    process_message env fs uid tid msg
    = Some (res, (save_interaction_node env
                    (fs, check_hitl_node
                           (state_at_check env fs (turn_start env uid tid msg)))).1)
    /\ turn_response res
       = QueryProcessor.response
           (QueryProcessor.generate_response msg (loaded_history fs uid)).
Proof.
  intros Hmsg E. unfold process_message. fold (turn_start env uid tid msg).
  destruct (state_at_check_of_turn env fs uid tid msg Hmsg)
    as (Hm & Hr & _).
  rewrite requires_hitl_generate_response, E in Hr.
  pose proof (answer_is_protected env msg (loaded_history fs uid) E) as Hp.
  set (result := QueryProcessor.generate_response msg (loaded_history fs uid)) in *.
  set (st3 := state_at_check env fs (turn_start env uid tid msg)) in *.
  rewrite (invoke_saved env fs _ Hr). fold st3.
  eexists. split; [reflexivity|]. cbn [final_state turn_response].
  rewrite (proj2 (check_hitl_node_fields st3) Hr).
  destruct (save_interaction_node_fields env fs st3) as [Hsm Hsr].
  destruct (trim_state_node_fields (save_interaction_node env (fs, st3)).2)
    as [Htr Htm].
  rewrite Htm by (rewrite Hsm, Hm; cbn; lia).
  rewrite Hsm, Hm.
  destruct (answer_survives_filter (MsgObj "human" msg [])
              (response_message env result) Hp) as [kept ->].
  unfold response_message. rewrite find_ai_last. done.
Qed.

(** X23. A turn with a message returns the answer of
    [generate_response] for that message and the history loaded for the
    user, never the apology: the answer survives trimming and filtering,
    since every answer names an important keyword. The turn asks for review
    exactly when [is_complex_query] holds of the message. *)
Theorem turn_returns_the_answer (env : TurnEnv) (fs : gmap string FileContent)
    (uid tid msg : string) :
  msg <> "" ->
  exists res fs',
    process_message env fs uid tid msg = Some (res, fs')
    /\ turn_response res
       = QueryProcessor.response
           (QueryProcessor.generate_response msg (loaded_history fs uid))
    /\ turn_requires_hitl res = QueryProcessor.is_complex_query msg
    /\ session_id res = uid +:+ "_" +:+ tid.
Proof.
  intros Hmsg. unfold process_message. fold (turn_start env uid tid msg).
  destruct (state_at_check_of_turn env fs uid tid msg Hmsg)
    as (Hm & Hr & _).
  rewrite requires_hitl_generate_response in Hr.
  pose proof (answer_is_protected env msg (loaded_history fs uid)) as Hp.
  set (result := QueryProcessor.generate_response msg (loaded_history fs uid)) in *.
  set (st3 := state_at_check env fs (turn_start env uid tid msg)) in *.
  destruct (QueryProcessor.is_complex_query msg) eqn:E.
  - rewrite (invoke_escalated env fs _ Hr). fold st3.
    do 2 eexists. split; [reflexivity|].
    cbn [final_state final_files turn_response turn_requires_hitl session_id].
    rewrite (proj1 (check_hitl_node_fields st3)), Hm.
    rewrite requires_hitl_check_hitl_node, Hr. done.
  - rewrite (invoke_saved env fs _ Hr). fold st3.
    do 2 eexists. split; [reflexivity|].
    cbn [final_state final_files turn_response turn_requires_hitl session_id].
    rewrite (proj2 (check_hitl_node_fields st3) Hr).
    destruct (save_interaction_node_fields env fs st3) as [Hsm Hsr].
    destruct (trim_state_node_fields (save_interaction_node env (fs, st3)).2)
      as [Htr Htm].
    rewrite Htm by (rewrite Hsm, Hm; cbn; lia).
    rewrite Htr, Hsr, Hr, Hsm, Hm.
    destruct (answer_survives_filter (MsgObj "human" msg [])
                (response_message env result) (Hp eq_refl)) as [kept ->].
    unfold response_message. rewrite find_ai_last. done.
Qed.

(** A question about cost, from a user without history. *)
Lemma turn_returns_the_answer_witness :
  option_map (fun o => turn_response o.1)
    (process_message sample_env ∅ "u1" "t1" "what is the cost of the plan")
  = Some QueryProcessor.kb_billing_response.
Proof.
  destruct (turn_returns_the_answer sample_env ∅ "u1" "t1"
              "what is the cost of the plan") as (res & fs' & Hp & Hr & _);
    [discriminate|].
  rewrite Hp. cbn [option_map fst]. rewrite Hr. vm_compute. reflexivity.
Defined.

Lemma strip_nonblank_nonempty (uid : string) : strip uid <> "" -> uid <> "".
Proof. by intros H ->. Qed.

(** X24. A turn that is answered without review, for a user whose
    identifier has a non-blank character and with a write that succeeds,
    adds exactly one entry at the end of the stored history of the user:
    the message as query, the answer returned as resolution, the time read
    for the entry, and the category and thread as metadata. *)
Theorem answered_turn_is_recorded (env : TurnEnv) (fs : gmap string FileContent)
    (uid tid msg : string) :
  msg <> "" -> QueryProcessor.is_complex_query msg = false ->
  strip uid <> "" -> write_outcome env = WriteOk ->
  exists res fs',
    process_message env fs uid tid msg = Some (res, fs')
    /\ stored_user_history (load_long_term_memory fs' uid)
       = stored_user_history (load_long_term_memory fs uid)
         ++ [{| query := msg; resolution := turn_response res;
                timestamp := t_entry env;
                entry_metadata :=
                  [("category",
                    VStr (QueryProcessor.category
                            (QueryProcessor.generate_response msg
                               (stored_user_history
                                  (load_long_term_memory fs uid)))));
                   ("thread_id", VStr tid)] |}].
Proof.
  intros Hmsg Hc Hu Hw.
  destruct (answered_turn_final_files env fs uid tid msg Hmsg Hc)
    as (res & Hp & Hres).
  exists res. eexists. split; [exact Hp|].
  pose proof (strip_nonblank_nonempty uid Hu) as Hne.
  destruct (state_at_check_of_turn env fs uid tid msg Hmsg)
    as (Hm & Hr & Hid & Ht & Hq & Hcat & _).
  rewrite requires_hitl_generate_response, Hc in Hr.
  assert (Hl : loaded_history fs uid
               = stored_user_history (load_long_term_memory fs uid)).
  { unfold loaded_history. by apply String.eqb_neq in Hne as ->. }
  rewrite Hl in *.
  rewrite (proj2 (check_hitl_node_fields _) Hr).
  unfold save_interaction_node. rewrite Hid, Hq, Ht, Hcat, Hm.
  apply String.eqb_neq in Hne, Hmsg. rewrite Hne, Hmsg. cbn [orb].
  unfold latest_ai_content, response_message.
  cbn [rev app List.find has_type content_attr String.eqb Ascii.eqb Bool.eqb].
  rewrite Hw, append_to_history_typed by done.
  unfold save_long_term_memory. cbn [snd fst]. rewrite load_after_write.
  cbn [stored_user_history metadata_or_empty]. by rewrite Hres.
Qed.

(** A first password question of "u1" is recorded with its answer. *)
Lemma answered_turn_is_recorded_witness :
  option_map
    (fun o => map query (stored_user_history (load_long_term_memory o.2 "u1")))
    (process_message sample_env ∅ "u1" "t1" "how do i reset my password")
  = Some ["how do i reset my password"].
Proof.
  destruct (answered_turn_is_recorded sample_env ∅ "u1" "t1"
              "how do i reset my password") as (res & fs' & Hp & Hh);
    [discriminate | vm_compute; reflexivity | discriminate | reflexivity |].
  rewrite Hp. cbn [option_map snd]. rewrite Hh. reflexivity.
Defined.

(** The turn with an empty message. *)
Lemma process_message_empty (env : TurnEnv) (fs : gmap string FileContent)
    (uid tid : string) :
  exists res,
    process_message env fs uid tid "" = Some (res, fs)
    /\ turn_requires_hitl res = false.
Proof.
  unfold process_message. fold (turn_start env uid tid "").
  destruct (fetch_history_node_fields fs (turn_start env uid tid ""))
    as (Hm & Hr & _).
  set (st1 := fetch_history_node fs (turn_start env uid tid "")) in *.
  assert (H3 : state_at_check env fs (turn_start env uid tid "")
               = meta_set "current_query" (VStr "") st1).
  { unfold state_at_check. fold st1.
    assert (H2 : process_query_node st1 = meta_set "current_query" (VStr "") st1).
    { unfold process_query_node. rewrite Hm. reflexivity. }
    rewrite H2. unfold generate_response_node, current_query, meta_set.
    cbn [metadata set_metadata]. by rewrite lookup_insert_eq. }
  assert (Hq : current_query (meta_set "current_query" (VStr "") st1) = "").
  { unfold current_query, meta_set. cbn [metadata set_metadata].
    by rewrite lookup_insert_eq. }
  assert (Hr3 : requires_hitl (state_at_check env fs (turn_start env uid tid ""))
                = false).
  { rewrite H3. cbn [meta_set set_metadata requires_hitl]. by rewrite Hr. }
  rewrite (invoke_saved env fs _ Hr3).
  rewrite (proj2 (check_hitl_node_fields _) Hr3), H3.
  assert (Hs : save_interaction_node env
                 (fs, meta_set "current_query" (VStr "") st1)
               = (fs, meta_set "current_query" (VStr "") st1)).
  { unfold save_interaction_node. rewrite Hq. by rewrite orb_true_r. }
  rewrite Hs. cbn [fst snd]. eexists. split; [reflexivity|].
  cbn [final_state turn_requires_hitl].
  rewrite (proj1 (trim_state_node_fields _)).
  cbn [meta_set set_metadata requires_hitl]. by rewrite Hr.
Qed.

Lemma save_interaction_node_blank_user (env : TurnEnv)
    (fs : gmap string FileContent) (st : AgentState) :
  strip (user_id st) = "" -> (save_interaction_node env (fs, st)).1 = fs.
Proof.
  intros H. unfold save_interaction_node.
  destruct (String.eqb (user_id st) "" || String.eqb (current_query st) "");
    [done|].
  unfold append_to_history, validate_append. by rewrite H.
Qed.

(** X25. Three kinds of turn leave the history files as they are. A
    turn with an empty message asks for no review and is not recorded. An
    escalated turn is answered with the escalation notice and not recorded.
    A turn of a user whose identifier is empty or blank is not recorded,
    whatever the message. *)
Theorem unrecorded_turns (env : TurnEnv) (fs : gmap string FileContent)
    (uid tid msg : string) :
  (msg = "" ->
   exists res, process_message env fs uid tid msg = Some (res, fs)
               /\ turn_requires_hitl res = false)
  /\ (QueryProcessor.is_complex_query msg = true ->
      exists res, process_message env fs uid tid msg = Some (res, fs)
                  /\ turn_response res = QueryProcessor.escalation_response
                  /\ turn_requires_hitl res = true)
  /\ (strip uid = "" ->
      exists res, process_message env fs uid tid msg = Some (res, fs)).
Proof.
  split; [intros ->; apply process_message_empty|].
  assert (Hesc : QueryProcessor.is_complex_query msg = true ->
                 exists res, process_message env fs uid tid msg = Some (res, fs)
                             /\ turn_response res = QueryProcessor.escalation_response
                             /\ turn_requires_hitl res = true).
  { intros Hc.
    assert (Hmsg : msg <> "") by (intros ->; discriminate Hc).
    unfold process_message. fold (turn_start env uid tid msg).
    destruct (state_at_check_of_turn env fs uid tid msg Hmsg) as (Hm & Hr & _).
    rewrite requires_hitl_generate_response, Hc in Hr.
    rewrite (invoke_escalated env fs _ Hr).
    eexists. split; [reflexivity|].
    cbn [final_state turn_response turn_requires_hitl].
    rewrite (proj1 (check_hitl_node_fields _)), Hm.
    rewrite requires_hitl_check_hitl_node, Hr. split; [|done].
    unfold response_message. cbn [rev app List.find has_type].
    pose proof (proj1 (escalation_result_of msg (loaded_history fs uid) Hc)) as E.
    change (String.eqb "ai" "ai") with true. cbn [content_attr]. by rewrite E. }
  split; [exact Hesc|]. intros Hu.
  destruct (String.eqb msg "") eqn:Em.
  { apply String.eqb_eq in Em. subst msg.
    destruct (process_message_empty env fs uid tid) as (res & H & _). eauto. }
  apply String.eqb_neq in Em.
  destruct (QueryProcessor.is_complex_query msg) eqn:Ec.
  { destruct (Hesc eq_refl) as (res & H & _). eauto. }
  destruct (answered_turn_final_files env fs uid tid msg Em Ec) as (res & H & _).
  exists res. rewrite H. do 2 f_equal.
  apply save_interaction_node_blank_user.
  destruct (state_at_check_of_turn env fs uid tid msg Em) as (_ & Hr & Hid & _).
  rewrite requires_hitl_generate_response, Ec in Hr.
  rewrite (proj2 (check_hitl_node_fields _) Hr), Hid. done.
Qed.

(** A refund request, and a question of a user called " ". *)
Lemma unrecorded_turns_examples :
  option_map snd (process_message sample_env ∅ "u1" "t1" "I want a refund")
  = Some ∅
  /\ option_map snd
       (process_message sample_env ∅ " " "t1" "what is the cost of the plan")
     = Some ∅
  /\ option_map (fun o => turn_response o.1)
       (process_message sample_env ∅ " " "t1" "what is the cost of the plan")
     = Some QueryProcessor.kb_billing_response.
Proof. repeat split; vm_compute; reflexivity. Qed.

(** X26. [start_session] raises [ValueError] exactly when the user or
    the thread identifier is empty. Otherwise it reports an active session
    with the number of entries stored for the user, also for a blank
    identifier, under which no turn is ever recorded. *)
Theorem start_session_outcome (now : string) (fs : gmap string FileContent)
    (uid tid : string) :
  (start_session now fs uid tid = Raised "ValueError" <-> uid = "" \/ tid = "")
  /\ (uid <> "" -> tid <> "" ->
      start_session now fs uid tid
      = Returned {| info_session_id := uid +:+ "_" +:+ tid;
                    info_user_id := uid; info_thread_id := tid;
                    history_count :=
                      Z.of_nat (length (stored_user_history
                                          (load_long_term_memory fs uid)));
                    info_status := "active" |}).
Proof.
  unfold start_session, validate_and_sanitize_state, validate_state,
    create_initial_state.
  cbn [user_id thread_id messages forallb andb].
  destruct (String.eqb_spec uid ""), (String.eqb_spec tid ""); cbn [negb andb];
    (split; [split; [intros H; try discriminate H; auto | intros [H|H]; done]
            | intros H1 H2; done]).
Qed.

End TurnsMore.
